(** * Montelukast risk engine ([script.js]): a shallow embedding

    The two builds of [RiskEngine] found in [script.js] are embedded as the
    modules [RiskEngine] (durations in weeks, seven-parameter [calculate]
    with the brand / combination-drug override) and [RiskEngineMonths]
    (durations in months, five-parameter [calculate]); [RiskEngineCall]
    adds the calls whose symptom list is absent.

    JavaScript numbers are IEEE 754 binary64 values.  They are modelled by
    the Standard Library's [spec_float] with the binary64 parameters
    (53-bit significand, [emax = 1024]), so products, sums, comparisons and
    NaN behave here as they do in the engine. *)

From Stdlib Require Import ZArith List String Bool Lia.
From Stdlib Require Import Floats.SpecFloat.
Import ListNotations.

Local Open Scope string_scope.
Local Open Scope Z_scope.

(** ** JavaScript numbers *)

Module JS.

Definition number : Type := spec_float.

Definition prec : Z := 53.
Definition emax : Z := 1024.

Definition NaN : number := S754_nan.

(** The number denoted by an integer literal. *)
Definition ofZ (z : Z) : number := binary_normalize prec emax z 0 false.

(** The number denoted by the decimal literal [n / d] ([d] a power of
    ten): the binary64 value nearest to the rational, which is what the
    correctly rounded quotient of the two exactly representable integers
    gives.  [dec 69 100] is the literal [0.69]. *)
Definition dec (n d : Z) : number := SFdiv prec emax (ofZ n) (ofZ d).

Definition mul (x y : number) : number := SFmul prec emax x y.
Definition add (x y : number) : number := SFadd prec emax x y.

(** Relational operators on numbers; every comparison with NaN is false. *)
Definition lt (x y : number) : bool := SFltb x y.
Definition le (x y : number) : bool := SFleb x y.
Definition gt (x y : number) : bool := SFltb y x.
Definition ge (x y : number) : bool := SFleb y x.

Definition is_zero (x : number) : bool :=
  match x with S754_zero _ => true | _ => false end.

Definition is_nan (x : number) : bool :=
  match x with S754_nan => true | _ => false end.

(** ToBoolean on a number: [0], [-0] and NaN are falsy. *)
Definition truthy_number (x : number) : bool :=
  negb (is_zero x || is_nan x).

(** [Math.max] on two arguments: NaN if either is NaN, and [+0] counts as
    larger than [-0]. *)
Definition Math_max (x y : number) : number :=
  match SFcompare x y with
  | None => NaN
  | Some Lt => y
  | Some Gt => x
  | Some Eq =>
      match x, y with
      | S754_zero true, S754_zero _ => y
      | _, _ => x
      end
  end.

(** [Math.round]: the integer nearest to [x], ties towards +infinity;
    the result keeps the sign of [x] when it is zero.  A finite number with
    a non-negative exponent is already an integer. *)
Definition Math_round (x : number) : number :=
  match x with
  | S754_finite s m e =>
      if 0 <=? e then x
      else
        let k := Z.pow 2 (- e) in
        let z := if s then Z.neg m else Z.pos m in
        let n := (2 * z + k) / (2 * k) in
        if n =? 0 then S754_zero s else ofZ n
  | _ => x
  end.

(** *** Property reads on the engine's static tables

    A table is an object literal whose own properties are numbers.  A read
    [table[key]] that misses the own properties continues along the
    prototype chain, so the names defined by [Object.prototype] resolve to
    built-in functions (or, for [__proto__], to [Object.prototype]
    itself) instead of [undefined]. *)

Inductive value : Type :=
  | VUndefined
  | VNumber (n : number)
  | VBuiltin (name : string).

Definition object : Type := list (string * number).

Definition Object_prototype_names : list string :=
  [ "constructor"; "__defineGetter__"; "__defineSetter__"; "hasOwnProperty";
    "__lookupGetter__"; "__lookupSetter__"; "isPrototypeOf";
    "propertyIsEnumerable"; "toString"; "valueOf"; "__proto__";
    "toLocaleString" ].

Definition inherited (key : string) : bool :=
  existsb (String.eqb key) Object_prototype_names.

Fixpoint own (o : object) (key : string) : option number :=
  match o with
  | [] => None
  | (k, v) :: rest => if String.eqb k key then Some v else own rest key
  end.

Definition get (o : object) (key : string) : value :=
  match own o key with
  | Some v => VNumber v
  | None => if inherited key then VBuiltin key else VUndefined
  end.

(** ToBoolean: objects and functions are truthy, [undefined] is falsy. *)
Definition truthy (v : value) : bool :=
  match v with
  | VUndefined => false
  | VNumber n => truthy_number n
  | VBuiltin _ => true
  end.

(** [v || d] *)
Definition or_else (v : value) (d : number) : value :=
  if truthy v then v else VNumber d.

(** ToNumber: a built-in function or [Object.prototype] converts through
    its string form, which is not a numeric literal, hence NaN. *)
Definition ToNumber (v : value) : number :=
  match v with
  | VUndefined => NaN
  | VNumber n => n
  | VBuiltin _ => NaN
  end.

(** *** Arguments that may be absent

    The age and duration handed to the engine are numbers, or one of the
    empty values the helpers test for: [undefined], [null] or the empty
    string. *)

Inductive arg : Type :=
  | AUndefined
  | ANull
  | AEmptyString
  | ANumber (n : number).

Definition arg_truthy (a : arg) : bool :=
  match a with
  | ANumber n => truthy_number n
  | _ => false
  end.

(** ToNumber on an argument: [undefined] is NaN, [null] and [''] are [+0]. *)
Definition arg_number (a : arg) : number :=
  match a with
  | AUndefined => NaN
  | ANull | AEmptyString => S754_zero false
  | ANumber n => n
  end.

(** *** Completions: a call returns a value or throws *)

Inductive error : Type := TypeError.

Inductive completion (A : Type) : Type :=
  | Normal (a : A)
  | Throw (e : error).

Arguments Normal {A} a.
Arguments Throw {A} e.

Definition bind {A B : Type} (c : completion A) (k : A -> completion B)
  : completion B :=
  match c with
  | Normal a => k a
  | Throw e => Throw e
  end.

(** [xs.includes(x)] on an array reference that may be [undefined]. *)
Definition includes (xs : option (list string)) (x : string)
  : completion bool :=
  match xs with
  | Some l => Normal (existsb (String.eqb x) l)
  | None => Throw TypeError
  end.

End JS.

Import JS.

(** ** Reference tables shared by the two builds *)

Definition AGE_BASELINES : object :=
  [ ("16-18", dec 14 100);
    ("13-15", dec 325 1000);
    ("10-12", dec 535 1000);
    ("7-9", dec 69 100);
    ("4-6", dec 85 100);
    ("1-3", dec 94 100) ].

Definition DOSE_MULTIPLIERS : object :=
  [ ("4mg", dec 10 10);
    ("5mg", dec 11 10);
    ("10mg", dec 125 100) ].

Definition DURATION_MULTIPLIERS : object :=
  [ ("short", dec 10 10);
    ("medium", dec 11 10);
    ("long", dec 12 10) ].

Definition HIGH_RISK : list string :=
  [ "Suicidal ideation / self-harm thoughts";
    "Suicide attempt";
    "Severe depression";
    "Psychosis / hallucinations";
    "Severe aggression or violent behavior";
    "Extreme mood swings";
    "Severe anxiety with panic attacks";
    "Personality changes (sudden, marked)";
    "Disorientation / confusion";
    "Loss of reality contact";
    "Behavioral regression (in children)" ].

Definition MODERATE_LOW_RISK : list string :=
  [ "Anxiety";
    "Depression (mild-moderate)";
    "Irritability";
    "Aggressive behavior";
    "Emotional lability";
    "Night terrors";
    "Severe insomnia";
    "Social withdrawal";
    "Poor concentration / attention issues";
    "Sleep disturbance";
    "Restlessness";
    "Nightmares";
    "Crying spells";
    "Fatigue";
    "Headache with mood change";
    "Appetite changes";
    "Mild mood changes" ].

(** [getAgeGroupKey] is the same function in both builds. *)
Definition getAgeGroupKey (age : arg) : string :=
  if negb (arg_truthy age) then "7-9"
  else if ge (arg_number age) (ofZ 16) then "16-18"
  else if ge (arg_number age) (ofZ 13) then "13-15"
  else if ge (arg_number age) (ofZ 10) then "10-12"
  else if ge (arg_number age) (ofZ 7) then "7-9"
  else if ge (arg_number age) (ofZ 4) then "4-6"
  else "1-3".

(** The count rule of [calculate]: the symptom-load category and the
    adder chosen from the number of selected symptoms. *)
Definition countRule (symptomCount : nat) : string * number :=
  if (4 <=? symptomCount)%nat then ("High", dec 25 100)
  else if (2 <=? symptomCount)%nat then ("Moderate", dec 10 100)
  else if (symptomCount =? 1)%nat then ("Low", dec 5 100)
  else ("Low", ofZ 0).

(** [selectedSymptoms.some(s => HIGH_RISK.includes(s))] *)
Definition someHighRisk (selectedSymptoms : list string) : bool :=
  existsb (fun s => existsb (String.eqb s) HIGH_RISK) selectedSymptoms.

Definition clamp (currentRisk : number) : number :=
  let currentRisk :=
    if gt currentRisk (dec 99 100) then dec 99 100 else currentRisk in
  if lt currentRisk (dec 5 100) then dec 5 100 else currentRisk.

Definition finalLabelOf (currentRisk : number) : string :=
  if ge currentRisk (dec 70 100) then "High Risk"
  else if ge currentRisk (dec 30 100) then "Moderate Risk"
  else "Low Risk".

(** ** The build that measures duration in weeks (extended variant) *)

Module RiskEngine.

Definition getDurationKey (weeks : arg) : string :=
  match weeks with
  | AEmptyString | ANull => "medium"
  | _ =>
      if lt (arg_number weeks) (ofZ 4) then "short"
      else if le (arg_number weeks) (ofZ 24) then "medium"
      else "long"
  end.

Record Details : Type := {
  base : value;
  symptomCat : string;
  hasHighSeverity : bool;
  isCriticalCombo : bool
}.

Record RiskResult : Type := {
  percentage : number;
  label : string;
  details : Details
}.

(** The local variables of [calculate] as they stand at its [return]. *)
Record Locals : Type := {
  ageGroup : string;
  duration : string;
  baseRisk : value;
  doseMult : value;
  durMult : value;
  symptomCount : nat;
  symptomAdder : number;
  symptomRiskCategory : string;
  highSeverity : bool;
  criticalCombo : bool;
  currentRisk : number;
  finalLabel : string
}.

(** [brand === 'Almont' && comboDrugs.includes('Levocetirizine')]: the
    method call is only evaluated when the brand test succeeds. *)
Definition criticalComboTest (brand : option string)
    (comboDrugs : option (list string)) : completion bool :=
  match brand with
  | Some b =>
      if String.eqb b "Almont" then includes comboDrugs "Levocetirizine"
      else Normal false
  | None => Normal false
  end.

Definition run (ageInput : arg) (dose : string) (durationWeeks : arg)
    (selectedSymptoms : list string) (temporalAssociation : bool)
    (brand : option string) (comboDrugs : option (list string))
  : completion Locals :=
  let ageGroup := getAgeGroupKey ageInput in
  let duration := getDurationKey durationWeeks in
  let baseRisk := or_else (get AGE_BASELINES ageGroup) (dec 14 100) in
  let doseMult := or_else (get DOSE_MULTIPLIERS dose) (ofZ 1) in
  let durMult := or_else (get DURATION_MULTIPLIERS duration) (ofZ 1) in
  let currentRisk :=
    mul (mul (ToNumber baseRisk) (ToNumber doseMult)) (ToNumber durMult) in
  let symptomCount := List.length selectedSymptoms in
  let '(symptomRiskCategory, symptomAdder) := countRule symptomCount in
  let currentRisk := add currentRisk symptomAdder in
  let hasHighSeverity := someHighRisk selectedSymptoms in
  let currentRisk :=
    if hasHighSeverity then Math_max currentRisk (dec 75 100)
    else currentRisk in
  let symptomRiskCategory :=
    if hasHighSeverity then "High (Severity)" else symptomRiskCategory in
  let currentRisk :=
    if temporalAssociation then mul currentRisk (dec 115 100)
    else currentRisk in
  bind (criticalComboTest brand comboDrugs) (fun isCriticalCombo =>
  let currentRisk :=
    if isCriticalCombo then dec 96 100 else currentRisk in
  let currentRisk := clamp currentRisk in
  let finalLabel := finalLabelOf currentRisk in
  Normal {|
    ageGroup := ageGroup;
    duration := duration;
    baseRisk := baseRisk;
    doseMult := doseMult;
    durMult := durMult;
    symptomCount := symptomCount;
    symptomAdder := symptomAdder;
    symptomRiskCategory := symptomRiskCategory;
    highSeverity := hasHighSeverity;
    criticalCombo := isCriticalCombo;
    currentRisk := currentRisk;
    finalLabel := finalLabel
  |}).

(** The object built by the [return] statement. *)
Definition result (l : Locals) : RiskResult :=
  {| percentage := Math_round (mul (currentRisk l) (ofZ 100));
     label := finalLabel l;
     details :=
       {| base := baseRisk l;
          symptomCat := symptomRiskCategory l;
          hasHighSeverity := highSeverity l;
          isCriticalCombo := criticalCombo l |} |}.

Definition calculate (ageInput : arg) (dose : string) (durationWeeks : arg)
    (selectedSymptoms : list string) (temporalAssociation : bool)
    (brand : option string) (comboDrugs : option (list string))
  : completion RiskResult :=
  bind (run ageInput dose durationWeeks selectedSymptoms
          temporalAssociation brand comboDrugs)
       (fun l => Normal (result l)).

End RiskEngine.

(** ** The build that measures duration in months *)

Module RiskEngineMonths.

Definition getDurationKey (months : arg) : string :=
  match months with
  | AEmptyString | ANull => "medium"
  | _ =>
      if lt (arg_number months) (ofZ 1) then "short"
      else if le (arg_number months) (ofZ 6) then "medium"
      else "long"
  end.

Record Details : Type := {
  base : value;
  symptomCat : string;
  hasHighSeverity : bool
}.

Record RiskResult : Type := {
  percentage : number;
  label : string;
  details : Details
}.

Record Locals : Type := {
  ageGroup : string;
  duration : string;
  baseRisk : value;
  doseMult : value;
  durMult : value;
  symptomCount : nat;
  symptomAdder : number;
  symptomRiskCategory : string;
  highSeverity : bool;
  currentRisk : number;
  finalLabel : string
}.

Definition run (ageInput : arg) (dose : string) (durationInput : arg)
    (selectedSymptoms : list string) (temporalAssociation : bool)
  : Locals :=
  let ageGroup := getAgeGroupKey ageInput in
  let duration := getDurationKey durationInput in
  let baseRisk := or_else (get AGE_BASELINES ageGroup) (dec 14 100) in
  let doseMult := or_else (get DOSE_MULTIPLIERS dose) (ofZ 1) in
  let durMult := or_else (get DURATION_MULTIPLIERS duration) (ofZ 1) in
  let currentRisk :=
    mul (mul (ToNumber baseRisk) (ToNumber doseMult)) (ToNumber durMult) in
  let symptomCount := List.length selectedSymptoms in
  let '(symptomRiskCategory, symptomAdder) := countRule symptomCount in
  let currentRisk := add currentRisk symptomAdder in
  let hasHighSeverity := someHighRisk selectedSymptoms in
  let currentRisk :=
    if hasHighSeverity then Math_max currentRisk (dec 75 100)
    else currentRisk in
  let symptomRiskCategory :=
    if hasHighSeverity then "High (Severity)" else symptomRiskCategory in
  let currentRisk :=
    if temporalAssociation then mul currentRisk (dec 115 100)
    else currentRisk in
  let currentRisk := clamp currentRisk in
  let finalLabel := finalLabelOf currentRisk in
  {| ageGroup := ageGroup;
     duration := duration;
     baseRisk := baseRisk;
     doseMult := doseMult;
     durMult := durMult;
     symptomCount := symptomCount;
     symptomAdder := symptomAdder;
     symptomRiskCategory := symptomRiskCategory;
     highSeverity := hasHighSeverity;
     currentRisk := currentRisk;
     finalLabel := finalLabel |}.

Definition result (l : Locals) : RiskResult :=
  {| percentage := Math_round (mul (currentRisk l) (ofZ 100));
     label := finalLabel l;
     details :=
       {| base := baseRisk l;
          symptomCat := symptomRiskCategory l;
          hasHighSeverity := highSeverity l |} |}.

Definition calculate (ageInput : arg) (dose : string) (durationInput : arg)
    (selectedSymptoms : list string) (temporalAssociation : bool)
  : RiskResult :=
  result (run ageInput dose durationInput selectedSymptoms
            temporalAssociation).

End RiskEngineMonths.

(** ** The controllers

    The rest of [script.js] is the page controller of each build.  What it
    reads from the document is taken as a snapshot ([Form]): the result of
    each [parseFloat] call, the [value] strings, and the checked flag and
    value of every radio button and check box in document order.  What it
    writes to the document is collected in a [View]. *)

Module JSMath.

Definition sub (x y : number) : number := SFsub prec emax x y.
Definition div (x y : number) : number := SFdiv prec emax x y.

(** [x === y] on numbers. *)
Definition strict_eq (x y : number) : bool := SFeqb x y.

(** [Math.min] on two arguments: NaN if either is NaN, and [-0] counts as
    smaller than [+0]. *)
Definition Math_min (x y : number) : number :=
  match SFcompare x y with
  | None => NaN
  | Some Lt => x
  | Some Gt => y
  | Some Eq =>
      match x, y with
      | S754_zero false, S754_zero _ => y
      | _, _ => x
      end
  end.

(** [Math.floor]: the largest integer not above [x]. *)
Definition Math_floor (x : number) : number :=
  match x with
  | S754_finite s m e =>
      if 0 <=? e then x
      else
        let z := if s then Z.neg m else Z.pos m in
        let n := z / Z.pow 2 (- e) in
        if n =? 0 then S754_zero s else ofZ n
  | _ => x
  end.

(** [hay.includes(needle)] on strings. *)
Fixpoint str_includes (needle hay : string) : bool :=
  if String.prefix needle hay then true
  else
    match hay with
    | EmptyString => false
    | String _ rest => str_includes needle rest
    end.

End JSMath.

Import JSMath.

(** The part of [calculateAndRender] after the engine call is the same
    text in both builds, except for the explanation line, which only the
    week build guards by [isCriticalCombo]. *)

Inductive Explanation : Type :=
  | CriticalCombination
  | HighSeverityDetected
  | SymptomLoad (category : string).

Record View : Type := {
  counterTarget : number;       (* the [end] handed to [animateValue] *)
  strokeDashoffset : number;
  colorVar : string;
  bgClass : string;
  labelText : string;
  basePercent : number;         (* [Math.round(result.details.base * 100)] *)
  explanation : Explanation;
  summaryCount : nat;
  summarySeverity : string;
  summaryClass : string
}.

(** [circumference - ((percentage / 100) * circumference)] *)
Definition dashOffset (percentage : number) : number :=
  let circumference := ofZ 628 in
  sub circumference (mul (div percentage (ofZ 100)) circumference).

(** The colour variable and background class chosen from the label. *)
Definition colourOf (label : string) : string * string :=
  if str_includes "High" label then ("--risk-high", "bg-high")
  else if str_includes "Moderate" label then ("--risk-mod", "bg-mod")
  else ("--risk-low", "bg-low").

Definition severityLine (symptomCat : string) : Explanation :=
  if String.eqb symptomCat "High (Severity)" then HighSeverityDetected
  else SymptomLoad symptomCat.

(** *** [animateValue]

    The browser calls [step] once per requested frame with a time stamp;
    [startTimestamp] is the variable the closure keeps between calls.  One
    call returns the new [startTimestamp], the number written to the
    counter, and whether another frame is requested. *)

Definition step (start end_ duration : number)
    (startTimestamp : option number) (timestamp : number)
  : option number * number * bool :=
  let startTimestamp :=
    match startTimestamp with
    | Some s => if truthy_number s then s else timestamp
    | None => timestamp
    end in
  let progress :=
    Math_min (div (sub timestamp startTimestamp) duration) (ofZ 1) in
  let shown := Math_floor (add (mul progress (sub end_ start)) start) in
  (Some startTimestamp, shown, lt progress (ofZ 1)).

(** The numbers written while the browser delivers [frames]. *)
Fixpoint frames_from (start end_ duration : number)
    (startTimestamp : option number) (frames : list number) : list number :=
  match frames with
  | [] => []
  | timestamp :: rest =>
      let '(st, shown, again) :=
        step start end_ duration startTimestamp timestamp in
      shown :: (if again then frames_from start end_ duration st rest
                else [])
  end.

Definition animateValue (start end_ duration : number)
    (frames : list number) : list number :=
  if strict_eq start end_ then []
  else frames_from start end_ duration None frames.

(** The dose radio buttons: each checked one overwrites the dose. *)
Definition selectDose (dose : string) (doseInputs : list (bool * string))
  : string :=
  fold_left
    (fun (d : string) (radio : bool * string) =>
       if fst radio then snd radio else d)
    doseInputs dose.

(** The values of the checked boxes, pushed in document order. *)
Definition pushChecked (boxes : list (bool * string)) : list string :=
  fold_left
    (fun (acc : list string) (cb : bool * string) =>
       if fst cb then (acc ++ [snd cb])%list else acc)
    boxes [].

Module Controller.

Record State : Type := {
  age : number;
  gender : string;
  height : string;
  weight : string;
  brand : string;
  dose : string;
  frequency : string;
  durationWeeks : number;
  comboDrugs : list string;
  symptoms : list string;
  temporal : bool
}.

Definition initialState : State :=
  {| age := ofZ 8; gender := "male"; height := ""; weight := "";
     brand := "Singulair"; dose := "5mg"; frequency := "morning";
     durationWeeks := ofZ 12; comboDrugs := []; symptoms := [];
     temporal := true |}.

Record Form : Type := {
  ageParsed : number;           (* [parseFloat(els.ageInput.value)] *)
  genderValue : string;
  heightValue : string;
  weightValue : string;
  brandValue : string;
  frequencyValue : string;
  durationParsed : number;      (* [parseFloat(els.durationInput.value)] *)
  doseInputs : list (bool * string);
  comboChecks : list (bool * string);
  temporalValue : string;
  symptomBoxes : list (bool * string)
}.

Definition updateState (state : State) (f : Form) : State :=
  {| age := if truthy_number (ageParsed f) then ageParsed f else ofZ 0;
     gender := genderValue f;
     height := heightValue f;
     weight := weightValue f;
     brand := brandValue f;
     frequency := frequencyValue f;
     durationWeeks :=
       if is_nan (durationParsed f) then ofZ 0 else durationParsed f;
     dose := selectDose (dose state) (doseInputs f);
     comboDrugs := pushChecked (comboChecks f);
     temporal := String.eqb (temporalValue f) "yes";
     symptoms := map snd (filter fst (symptomBoxes f)) |}.

Definition engineCall (state : State) : completion RiskEngine.RiskResult :=
  RiskEngine.calculate (ANumber (age state)) (dose state)
    (ANumber (durationWeeks state)) (symptoms state) (temporal state)
    (Some (brand state)) (Some (comboDrugs state)).

Definition render (state : State) (result : RiskEngine.RiskResult) : View :=
  let '(colorVar, bgClass) := colourOf (RiskEngine.label result) in
  let details := RiskEngine.details result in
  {| counterTarget := RiskEngine.percentage result;
     strokeDashoffset := dashOffset (RiskEngine.percentage result);
     colorVar := colorVar;
     bgClass := bgClass;
     labelText := RiskEngine.label result;
     basePercent :=
       Math_round (mul (ToNumber (RiskEngine.base details)) (ofZ 100));
     explanation :=
       if RiskEngine.isCriticalCombo details then CriticalCombination
       else severityLine (RiskEngine.symptomCat details);
     summaryCount := List.length (symptoms state);
     summarySeverity :=
       if RiskEngine.hasHighSeverity details then "High" else "Low/Mod";
     summaryClass :=
       if RiskEngine.hasHighSeverity details then "status-high"
       else "status-low" |}.

Definition calculateAndRender (state : State) : completion View :=
  bind (engineCall state) (fun result => Normal (render state result)).

End Controller.

Module ControllerMonths.

Record State : Type := {
  age : number;
  dose : string;
  durationMonths : number;
  symptoms : list string;
  temporal : bool
}.

Definition initialState : State :=
  {| age := ofZ 8; dose := "5mg"; durationMonths := ofZ 3; symptoms := [];
     temporal := true |}.

Record Form : Type := {
  ageParsed : number;
  durationParsed : number;
  doseInputs : list (bool * string);
  temporalValue : string;
  symptomBoxes : list (bool * string)
}.

Definition updateState (state : State) (f : Form) : State :=
  {| age := if truthy_number (ageParsed f) then ageParsed f else ofZ 0;
     durationMonths :=
       if is_nan (durationParsed f) then ofZ 0 else durationParsed f;
     dose := selectDose (dose state) (doseInputs f);
     temporal := String.eqb (temporalValue f) "yes";
     symptoms := map snd (filter fst (symptomBoxes f)) |}.

Definition engineCall (state : State) : RiskEngineMonths.RiskResult :=
  RiskEngineMonths.calculate (ANumber (age state)) (dose state)
    (ANumber (durationMonths state)) (symptoms state) (temporal state).

Definition render (state : State) (result : RiskEngineMonths.RiskResult)
  : View :=
  let '(colorVar, bgClass) := colourOf (RiskEngineMonths.label result) in
  let details := RiskEngineMonths.details result in
  {| counterTarget := RiskEngineMonths.percentage result;
     strokeDashoffset := dashOffset (RiskEngineMonths.percentage result);
     colorVar := colorVar;
     bgClass := bgClass;
     labelText := RiskEngineMonths.label result;
     basePercent :=
       Math_round
         (mul (ToNumber (RiskEngineMonths.base details)) (ofZ 100));
     explanation := severityLine (RiskEngineMonths.symptomCat details);
     summaryCount := List.length (symptoms state);
     summarySeverity :=
       if RiskEngineMonths.hasHighSeverity details then "High"
       else "Low/Mod";
     summaryClass :=
       if RiskEngineMonths.hasHighSeverity details then "status-high"
       else "status-low" |}.

Definition calculateAndRender (state : State) : View :=
  render state (engineCall state).

End ControllerMonths.


(** ** Definitions used to state and check the properties *)

(** Structural equality test on numbers. *)
Definition number_eqb (x y : number) : bool :=
  match x, y with
  | S754_zero a, S754_zero b => Bool.eqb a b
  | S754_infinity a, S754_infinity b => Bool.eqb a b
  | S754_nan, S754_nan => true
  | S754_finite s m e, S754_finite s' m' e' =>
      Bool.eqb s s' && Pos.eqb m m' && Z.eqb e e'
  | _, _ => false
  end.

(** The integer a number stands for, when it stands for one. *)
Definition to_integer (x : number) : option Z :=
  match x with
  | S754_zero _ => Some 0
  | S754_finite s m e =>
      let z := if s then Z.neg m else Z.pos m in
      if 0 <=? e then Some (z * 2 ^ e)
      else if z mod 2 ^ (- e) =? 0 then Some (z / 2 ^ (- e)) else None
  | _ => None
  end.

(** [x] is the number of an integer between [lo] and [hi]. *)
Definition integer_between (lo hi : Z) (x : number) : bool :=
  match to_integer x with
  | Some z => (lo <=? z) && (z <=? hi) && number_eqb x (ofZ z)
  | None => false
  end.

(** [within x n d t] decides [|x - n/d| < 1/t] for the exact rational
    value of [x], cleared of denominators ([d] and [t] positive). *)
Definition within (x : number) (n d t : Z) : bool :=
  match x with
  | S754_finite s m e =>
      let z := if s then Z.neg m else Z.pos m in
      if 0 <=? e then t * Z.abs (z * 2 ^ e * d - n) <? d
      else t * Z.abs (z * d - n * 2 ^ (- e)) <? d * 2 ^ (- e)
  | S754_zero _ => t * Z.abs n <? d
  | _ => false
  end.

(** [is_nearest x n d]: [x] is a valid positive binary64 number whose
    distance to the rational [n / d] is at most half a unit in its last
    place, that is, [x] is a binary64 number nearest to [n / d]. *)
Definition is_nearest (x : number) (n d : Z) : bool :=
  match x with
  | S754_finite false m e =>
      valid_binary prec emax x
      && (if 0 <=? e
          then 2 * Z.abs (Z.pos m * 2 ^ e * d - n) <=? 2 ^ e * d
          else 2 * Z.abs (Z.pos m * d - n * 2 ^ (- e)) <=? d)
  | _ => false
  end.

(** The decimal literals of the engine, as numerator and denominator. *)
Definition literals : list (Z * Z) :=
  [ (14, 100); (325, 1000); (535, 1000); (69, 100); (85, 100); (94, 100);
    (10, 10); (11, 10); (125, 100); (12, 10);
    (25, 100); (10, 100); (5, 100); (75, 100); (115, 100); (96, 100);
    (99, 100); (70, 100); (30, 100) ].

(** A numeric argument given by an integer literal. *)
Definition num (z : Z) : arg := ANumber (ofZ z).

(** The numbers the three table reads of [calculate] produce when the
    dose is a table key or is found nowhere on the prototype chain, and
    the adders of the count rule. *)
Definition bases : list number :=
  [ dec 14 100; dec 325 1000; dec 535 1000; dec 69 100; dec 85 100;
    dec 94 100 ].
Definition doseMults : list number := [ ofZ 1; dec 11 10; dec 125 100 ].
Definition durMults : list number := [ ofZ 1; dec 11 10; dec 12 10 ].
Definition adders : list number :=
  [ ofZ 0; dec 5 100; dec 10 100; dec 25 100 ].

(** The arithmetic of [calculate] from the three factors to the clamped
    fraction, as one expression. *)
Definition score (b dm um ad : number) (hh t cc : bool) : number :=
  let r := add (mul (mul b dm) um) ad in
  let r := if hh then Math_max r (dec 75 100) else r in
  let r := if t then mul r (dec 115 100) else r in
  let r := if cc then dec 96 100 else r in
  clamp r.

(** What is checked of every score: the fraction lies in [0.05, 0.99],
    the percentage is an integer in [5, 99], and a high-severity score is
    at least 0.75. *)
Definition score_ok (b dm um ad : number) (hh t cc : bool) : bool :=
  let r := score b dm um ad hh t cc in
  le (dec 5 100) r && le r (dec 99 100)
  && integer_between 5 99 (Math_round (mul r (ofZ 100)))
  && implb hh (ge r (dec 75 100)).

(** The outcome of the combination test when [comboDrugs] is an array. *)
Definition isCritical (brand : option string) (combo : list string) : bool :=
  match brand with
  | Some b => String.eqb b "Almont" && existsb (String.eqb "Levocetirizine") combo
  | None => false
  end.

(** The count rule as the specification words it: by the length of the
    symptom list. *)
Definition adder_by_count (n : nat) : number :=
  match n with
  | 0%nat => ofZ 0
  | 1%nat => dec 5 100
  | 2%nat | 3%nat => dec 10 100
  | _ => dec 25 100
  end.

Definition load_by_count (n : nat) : string :=
  match n with
  | 0%nat | 1%nat => "Low"
  | 2%nat | 3%nat => "Moderate"
  | _ => "High"
  end.

(** The baselines of the age brackets as the specification lists them:
    [b] is the baseline claimed for [age]. *)
Definition baseline_as_claimed (age : arg) (b : value) : Prop :=
  (arg_truthy age = false -> b = VNumber (dec 69 100))
  /\ (forall a, age = ANumber a ->
        (ge a (ofZ 16) = true -> b = VNumber (dec 14 100))
        /\ (ge a (ofZ 13) = true -> lt a (ofZ 16) = true ->
            b = VNumber (dec 325 1000))
        /\ (ge a (ofZ 10) = true -> lt a (ofZ 13) = true ->
            b = VNumber (dec 535 1000))
        /\ (ge a (ofZ 7) = true -> lt a (ofZ 10) = true ->
            b = VNumber (dec 69 100))
        /\ (ge a (ofZ 4) = true -> lt a (ofZ 7) = true ->
            b = VNumber (dec 85 100))
        /\ (ge a (ofZ 1) = true -> lt a (ofZ 4) = true ->
            b = VNumber (dec 94 100))).

(** *** Definitions for the further properties *)

(** The three factors [calculate] multiplies, as numbers. *)
Definition baseOf (age : arg) : number :=
  ToNumber (or_else (get AGE_BASELINES (getAgeGroupKey age)) (dec 14 100)).

Definition doseOf (dose : string) : number :=
  ToNumber (or_else (get DOSE_MULTIPLIERS dose) (ofZ 1)).

Definition weeksDurOf (dur : arg) : number :=
  ToNumber
    (or_else (get DURATION_MULTIPLIERS (RiskEngine.getDurationKey dur))
       (ofZ 1)).

Definition monthsDurOf (dur : arg) : number :=
  ToNumber
    (or_else (get DURATION_MULTIPLIERS (RiskEngineMonths.getDurationKey dur))
       (ofZ 1)).

(** [Math.round(currentRisk * 100)] *)
Definition percentOf (r : number) : number := Math_round (mul r (ofZ 100)).

(** The clamped fraction of a call, in each build. *)
Definition weeksScore (age : arg) (dose : string) (dur : arg)
    (sym : list string) (t : bool) (brand : option string)
    (combo : list string) : number :=
  score (baseOf age) (doseOf dose) (weeksDurOf dur)
    (adder_by_count (List.length sym)) (someHighRisk sym) t
    (isCritical brand combo).

Definition monthsScore (age : arg) (dose : string) (dur : arg)
    (sym : list string) (t : bool) : number :=
  score (baseOf age) (doseOf dose) (monthsDurOf dur)
    (adder_by_count (List.length sym)) (someHighRisk sym) t false.

(** The percentage shown with each label lies in the band of the label. *)
Definition band_ok (r : number) : bool :=
  let l := finalLabelOf r in
  if String.eqb l "High Risk" then integer_between 70 99 (percentOf r)
  else if String.eqb l "Moderate Risk"
       then integer_between 30 70 (percentOf r)
  else integer_between 14 30 (percentOf r).

(** What is checked of every score besides [score_ok]. *)
Definition facts_ok (b dm um ad : number) (hh t cc : bool) : bool :=
  let r := score b dm um ad hh t cc in
  le (dec 14 100) r
  && integer_between 14 99 (percentOf r)
  && band_ok r
  && implb hh (String.eqb (finalLabelOf r) "High Risk"
               && integer_between 75 99 (percentOf r)).

(** The temporal boost does not lower a score. *)
Definition temporal_ok (b dm um ad : number) (hh cc : bool) : bool :=
  le (score b dm um ad hh false cc) (score b dm um ad hh true cc)
  && le (percentOf (score b dm um ad hh false cc))
        (percentOf (score b dm um ad hh true cc)).

(** The adders of two consecutive symptom counts, and the severity flag
    before and after one more symptom. *)
Definition adder_steps : list (number * number) :=
  [ (ofZ 0, dec 5 100); (dec 5 100, dec 10 100); (dec 10 100, dec 10 100);
    (dec 10 100, dec 25 100); (dec 25 100, dec 25 100) ].

Definition severity_steps : list (bool * bool) :=
  [ (false, false); (false, true); (true, true) ].

Definition symptom_ok (b dm um : number) (t cc : bool)
    (a2 : number * number) (h2 : bool * bool) : bool :=
  le (score b dm um (fst a2) (fst h2) t cc)
     (score b dm um (snd a2) (snd h2) t cc)
  && le (percentOf (score b dm um (fst a2) (fst h2) t cc))
        (percentOf (score b dm um (snd a2) (snd h2) t cc)).

(** The ring offset of a percentage lies strictly inside the ring. *)
Definition offset_ok (z : Z) : bool :=
  lt (ofZ 6) (dashOffset (ofZ z)) && lt (dashOffset (ofZ z)) (ofZ 541).

(** The integers from [lo] on, [n] of them. *)
Fixpoint Zrange (lo : Z) (n : nat) : list Z :=
  match n with
  | O => []
  | S k => lo :: Zrange (lo + 1) k
  end.

(** The last frame of an animation between two whole percentages writes
    the target. *)
Definition landing_ok (a b : Z) : bool :=
  number_eqb
    (Math_floor (add (mul (ofZ 1) (sub (ofZ b) (ofZ a))) (ofZ a)))
    (ofZ b).

(** The effective start of an animation at a frame. *)
Definition effectiveStart (startTimestamp : option number)
    (timestamp : number) : number :=
  match startTimestamp with
  | Some s => if truthy_number s then s else timestamp
  | None => timestamp
  end.

(** ** Calls whose symptom argument may be absent

    In both builds the first use [calculate] makes of [selectedSymptoms]
    is the property read [selectedSymptoms.length]; what is evaluated
    before it (the two helper calls, three table reads and a product of
    numbers) cannot throw.  When the argument is [undefined] or [null]
    that read throws a TypeError, and the call completes with it;
    otherwise the call goes on as [calculate] does on the array. *)

Module RiskEngineCall.

(** The array behind a reference whose property is read. *)
Definition arrayOf (xs : option (list string)) : completion (list string) :=
  match xs with
  | Some l => Normal l
  | None => Throw TypeError
  end.

Definition calculate (ageInput : arg) (dose : string) (durationWeeks : arg)
    (selectedSymptoms : option (list string)) (temporalAssociation : bool)
    (brand : option string) (comboDrugs : option (list string))
  : completion RiskEngine.RiskResult :=
  bind (arrayOf selectedSymptoms) (fun symptoms =>
  RiskEngine.calculate ageInput dose durationWeeks symptoms
    temporalAssociation brand comboDrugs).

Definition calculateMonths (ageInput : arg) (dose : string)
    (durationInput : arg) (selectedSymptoms : option (list string))
    (temporalAssociation : bool)
  : completion RiskEngineMonths.RiskResult :=
  bind (arrayOf selectedSymptoms) (fun symptoms =>
  Normal (RiskEngineMonths.calculate ageInput dose durationInput symptoms
            temporalAssociation)).

End RiskEngineCall.

(** * Verification *)

(** The numeric constants are kept folded while goals are simplified;
    they are evaluated only by [vm_compute]. *)
Arguments dec : simpl never.
Arguments ofZ : simpl never.
Arguments mul : simpl never.
Arguments add : simpl never.
Arguments Math_max : simpl never.
Arguments Math_round : simpl never.
Arguments clamp : simpl never.
Arguments finalLabelOf : simpl never.

(** ** Facts about binary64 numbers *)

Section NumberFacts.

Ltac cmp_cases :=
  repeat match goal with
  | H : context [Z.compare ?x ?y] |- _ => destruct (Z.compare_spec x y)
  | |- context [Z.compare ?x ?y] => destruct (Z.compare_spec x y)
  | H : context [Pos.compare_cont Eq ?x ?y] |- _ =>
      change (Pos.compare_cont Eq x y) with (Pos.compare x y) in *;
      destruct (Pos.compare_spec x y)
  | |- context [Pos.compare_cont Eq ?x ?y] =>
      change (Pos.compare_cont Eq x y) with (Pos.compare x y) in *;
      destruct (Pos.compare_spec x y)
  end.

(** If [a < b] and [b <= c] then [c <= a] is false.  The comparison of
    [spec_float] orders finite numbers of one sign by exponent and then by
    significand, so the fact holds for every triple. *)
Lemma SFltb_SFleb_trans (a b c : number) :
  SFltb a b = true -> SFleb b c = true -> SFleb c a = false.
Proof.
  unfold SFltb, SFleb.
  destruct a as [sa|sa| |sa ma ea], b as [sb|sb| |sb mb eb],
    c as [sc|sc| |sc mc ec]; cbn [SFcompare];
    try destruct sa; try destruct sb; try destruct sc;
    try (intros; congruence); try reflexivity;
    intros H1 H2; cmp_cases; cbn [CompOpp] in *;
    try congruence; try lia.
Qed.

Lemma SFltb_SFleb (a b : number) : SFltb a b = true -> SFleb a b = true.
Proof.
  unfold SFltb, SFleb. destruct (SFcompare a b) as [[]|]; congruence.
Qed.

Lemma SFleb_refl_of_ltb (a b : number) : SFltb a b = true -> SFleb b b = true.
Proof.
  unfold SFltb, SFleb.
  destruct a as [sa|sa| |sa ma ea], b as [sb|sb| |sb mb eb];
    cbn [SFcompare]; try destruct sa; try destruct sb;
    try congruence; try reflexivity;
    intros _; rewrite Z.compare_refl;
    change (Pos.compare_cont Eq mb mb) with (Pos.compare mb mb);
    rewrite Pos.compare_refl; reflexivity.
Qed.

(** [a < c] excludes [a >= c]. *)
Lemma lt_not_ge (a c : number) : lt a c = true -> ge a c = false.
Proof.
  unfold lt, ge. intros H.
  apply (SFltb_SFleb_trans a c c H). exact (SFleb_refl_of_ltb a c H).
Qed.

(** [a >= c] excludes [a < c]. *)
Lemma ge_not_lt (a c : number) : ge a c = true -> lt a c = false.
Proof.
  intros H. destruct (lt a c) eqn:E; [|reflexivity].
  apply lt_not_ge in E. congruence.
Qed.

(** [a > c] excludes [a <= c]. *)
Lemma gt_not_le (a c : number) : gt a c = true -> le a c = false.
Proof. unfold gt, le. apply lt_not_ge. Qed.

(** Below [c1], hence not at or above any [c2] with [c1 <= c2]. *)
Lemma lt_not_ge_above (a c1 c2 : number) :
  lt a c1 = true -> le c1 c2 = true -> ge a c2 = false.
Proof. unfold lt, le, ge. apply SFltb_SFleb_trans. Qed.

(** Above [c2], hence not below any [c1] with [c1 <= c2]. *)
Lemma gt_not_lt_below (a c1 c2 : number) :
  gt a c2 = true -> le c1 c2 = true -> lt a c1 = false.
Proof.
  unfold gt, le, lt. intros H1 H2.
  destruct (SFltb a c1) eqn:E; [|reflexivity].
  pose proof (SFltb_SFleb_trans a c1 c2 E H2) as H3.
  apply SFltb_SFleb in H1. congruence.
Qed.

Lemma number_eqb_eq (x y : number) : number_eqb x y = true -> x = y.
Proof.
  destruct x, y; cbn [number_eqb]; try discriminate; try reflexivity;
    intros H.
  - apply Bool.eqb_prop in H. congruence.
  - apply Bool.eqb_prop in H. congruence.
  - apply andb_prop in H. destruct H as [H He].
    apply andb_prop in H. destruct H as [Hs Hm].
    apply Bool.eqb_prop in Hs. apply Pos.eqb_eq in Hm. apply Z.eqb_eq in He.
    congruence.
Qed.

(** *** Literals and rounding *)

(** Each decimal literal of the engine denotes the binary64 number nearest
    to it. *)
Lemma literals_nearest :
  forallb (fun q => is_nearest (dec (fst q) (snd q)) (fst q) (snd q))
    literals = true.
Proof. vm_compute. reflexivity. Qed.

(** [Math.round] on a few numbers: halves go up, and a result of zero
    keeps the sign of the argument. *)
Example Math_round_samples :
  Math_round (dec 25 10) = ofZ 3
  /\ Math_round (SFopp (dec 25 10)) = ofZ (-2)
  /\ Math_round (dec 5 10) = ofZ 1
  /\ Math_round (dec 49 100) = S754_zero false
  /\ Math_round (SFopp (dec 5 10)) = S754_zero true
  /\ Math_round (dec 960135 10000) = ofZ 96
  /\ Math_round NaN = NaN.
Proof. repeat split; vm_compute; reflexivity. Qed.

(** *** Multiplying by four

    [4 * m] is exact for every binary64 number: the exponent moves up by
    two, overflowing to an infinity of the same sign at the top of the
    range, and a subnormal significand is shifted left instead. *)

Lemma four_eq : ofZ 4 = S754_finite false 4503599627370496 (-50).
Proof. reflexivity. Qed.

Lemma digits_shl52 (mx : positive) :
  Zdigits2 (Z.pos (Pos.mul 4503599627370496 mx))
  = Z.pos (digits2_pos mx) + 52.
Proof.
  cbn [Pos.mul Zdigits2 digits2_pos]. rewrite !Pos2Z.inj_succ. lia.
Qed.

Lemma mul4_finite (s : bool) (mx : positive) (ex : Z) :
  bounded prec emax mx ex = true ->
  mul (ofZ 4) (S754_finite s mx ex) =
    if Z.pos (digits2_pos mx) =? 53 then
      if ex + 2 <=? 971 then S754_finite s mx (ex + 2) else S754_infinity s
    else if Z.pos (digits2_pos mx) =? 52 then S754_finite s (mx~0) (-1073)
    else S754_finite s (mx~0~0) (-1074).
Proof.
  intros Hb.
  unfold bounded, canonical_mantissa, fexp, SpecFloat.emin, prec, emax in Hb.
  apply andb_prop in Hb. destruct Hb as [Hc He].
  apply Z.eqb_eq in Hc. apply Z.leb_le in He.
  rewrite four_eq. unfold mul, SFmul. cbn [xorb].
  unfold binary_round_aux, shr_fexp.
  rewrite digits_shl52.
  set (d := Z.pos (digits2_pos mx)) in *.
  unfold fexp, SpecFloat.emin, prec, emax.
  destruct (Z.eqb_spec d 53) as [Hd|Hd].
  - replace (Z.max (d + 52 + (-50 + ex) - 53) (3 - 1024 - 53) - (-50 + ex))
      with 52 by lia.
    cbn [Pos.mul shr shr_record_of_loc iter_pos shr_1 orb shr_m
         loc_of_shr_record round_nearest_even Zdigits2].
    fold d.
    replace (Z.max (d + (-50 + ex + 52) - 53) (3 - 1024 - 53)
             - (-50 + ex + 52)) with 0 by lia.
    cbn [shr shr_m].
    replace (-50 + ex + 52) with (ex + 2) by lia. reflexivity.
  - destruct (Z.eqb_spec d 52) as [Hd2|Hd2].
    + replace (Z.max (d + 52 + (-50 + ex) - 53) (3 - 1024 - 53)
               - (-50 + ex)) with 51 by lia.
      cbn [Pos.mul shr shr_record_of_loc iter_pos shr_1 orb shr_m
           loc_of_shr_record round_nearest_even Zdigits2 digits2_pos].
      rewrite Pos2Z.inj_succ. fold d.
      replace (Z.max (Z.succ d + (-50 + ex + 51) - 53) (3 - 1024 - 53)
               - (-50 + ex + 51)) with 0 by lia.
      cbn [shr shr_m].
      replace (-50 + ex + 51) with (-1073) by lia. reflexivity.
    + assert (0 < d) by (unfold d; lia).
      replace (Z.max (d + 52 + (-50 + ex) - 53) (3 - 1024 - 53)
               - (-50 + ex)) with 50 by lia.
      cbn [Pos.mul shr shr_record_of_loc iter_pos shr_1 orb shr_m
           loc_of_shr_record round_nearest_even Zdigits2 digits2_pos].
      rewrite !Pos2Z.inj_succ. fold d.
      replace (Z.max (Z.succ (Z.succ d) + (-50 + ex + 50) - 53)
                 (3 - 1024 - 53) - (-50 + ex + 50)) with 0 by lia.
      cbn [shr shr_m].
      replace (-50 + ex + 50) with (-1074) by lia. reflexivity.
Qed.

(** Comparing [4 * m] with a positive normal constant whose exponent is
    two higher gives the same answer as comparing [m] with the constant. *)
Lemma compare_mul4 (m : number) (mc : positive) (ec : Z) :
  valid_binary prec emax m = true ->
  -1000 < ec < 900 ->
  SFcompare (mul (ofZ 4) m) (S754_finite false mc (ec + 2))
  = SFcompare m (S754_finite false mc ec).
Proof.
  intros Hv Hec.
  destruct m as [s|s| |s mx ex]; try (destruct s; reflexivity);
    try reflexivity.
  cbn [valid_binary] in Hv. rewrite (mul4_finite s mx ex Hv).
  unfold bounded, canonical_mantissa, fexp, SpecFloat.emin, prec, emax in Hv.
  apply andb_prop in Hv. destruct Hv as [Hc He].
  apply Z.eqb_eq in Hc. apply Z.leb_le in He.
  set (d := Z.pos (digits2_pos mx)) in *.
  destruct (Z.eqb_spec d 53) as [Hd|Hd].
  - destruct (Z.leb_spec (ex + 2) 971) as [Ho|Ho].
    + cbn [SFcompare].
      rewrite (Z.add_comm ex 2), (Z.add_comm ec 2), Z.add_compare_mono_l.
      reflexivity.
    + cbn [SFcompare]. destruct s; [reflexivity|].
      assert (Hgt : (ex ?= ec) = Gt) by (apply Z.compare_gt_iff; lia).
      rewrite Hgt. reflexivity.
  - assert (Hex : ex = -1074) by lia.
    assert (Hlt1 : (ex ?= ec) = Lt) by (apply Z.compare_lt_iff; lia).
    destruct (Z.eqb_spec d 52) as [Hd2|Hd2]; cbn [SFcompare];
      destruct s; try reflexivity; rewrite Hlt1.
    + assert (Hlt2 : (-1073 ?= ec + 2) = Lt) by (apply Z.compare_lt_iff; lia).
      rewrite Hlt2. reflexivity.
    + assert (Hlt2 : (-1074 ?= ec + 2) = Lt) by (apply Z.compare_lt_iff; lia).
      rewrite Hlt2. reflexivity.
Qed.

End NumberFacts.

(** ** Facts about the engine *)

Section EngineFacts.

Lemma existsb_eqb_In (x : string) (l : list string) :
  existsb (String.eqb x) l = true <-> In x l.
Proof.
  rewrite existsb_exists. split.
  - intros [y [Hy He]]. apply String.eqb_eq in He. subst y. exact Hy.
  - intros H. exists x. split; [exact H | apply String.eqb_refl].
Qed.

Lemma criticalComboTest_array (brand : option string) (combo : list string) :
  RiskEngine.criticalComboTest brand (Some combo)
  = Normal (isCritical brand combo).
Proof.
  unfold RiskEngine.criticalComboTest, isCritical, includes.
  destruct brand as [b|]; [|reflexivity].
  destruct (String.eqb b "Almont"); reflexivity.
Qed.

Lemma isCritical_Almont (combo : list string) :
  In "Levocetirizine" combo -> isCritical (Some "Almont") combo = true.
Proof.
  intros H. unfold isCritical. apply existsb_eqb_In in H. rewrite H.
  reflexivity.
Qed.

Lemma isCritical_false (brand : option string) (combo : list string) :
  ~ (brand = Some "Almont" /\ In "Levocetirizine" combo) ->
  isCritical brand combo = false.
Proof.
  intros H. unfold isCritical. destruct brand as [b|]; [|reflexivity].
  destruct (String.eqb b "Almont") eqn:Eb; [|reflexivity].
  destruct (existsb (String.eqb "Levocetirizine") combo) eqn:Ec;
    [|reflexivity].
  exfalso. apply H. apply String.eqb_eq in Eb. apply existsb_eqb_In in Ec.
  subst b. split; [reflexivity | exact Ec].
Qed.

(** The count rule of the code is the step function of the
    specification. *)
Lemma countRule_spec (n : nat) :
  countRule n = (load_by_count n, adder_by_count n).
Proof. destruct n as [|[|[|[|n]]]]; reflexivity. Qed.

(** The count rule read at each length. *)
Lemma count_rule_steps (n : nat) :
  (n = 0%nat -> countRule n = ("Low", ofZ 0))
  /\ (n = 1%nat -> countRule n = ("Low", dec 5 100))
  /\ ((2 <= n <= 3)%nat -> countRule n = ("Moderate", dec 10 100))
  /\ ((4 <= n)%nat -> countRule n = ("High", dec 25 100)).
Proof.
  destruct n as [|[|[|[|n]]]];
    repeat split; intros H; try reflexivity; try lia; try discriminate.
Qed.

Lemma someHighRisk_In (selectedSymptoms : list string) :
  (exists s, In s selectedSymptoms /\ In s HIGH_RISK) ->
  someHighRisk selectedSymptoms = true.
Proof.
  intros [s [Hs Hh]]. unfold someHighRisk. apply existsb_exists.
  exists s. split; [exact Hs | apply existsb_eqb_In; exact Hh].
Qed.

(** What [run] leaves in the locals when [comboDrugs] is an array. *)
Lemma run_array (age : arg) (dose : string) (dur : arg)
    (sym : list string) (t : bool) (brand : option string)
    (combo : list string) :
  exists l,
    RiskEngine.run age dose dur sym t brand (Some combo) = Normal l
    /\ RiskEngine.calculate age dose dur sym t brand (Some combo)
       = Normal (RiskEngine.result l)
    /\ RiskEngine.duration l = RiskEngine.getDurationKey dur
    /\ RiskEngine.baseRisk l
       = or_else (get AGE_BASELINES (getAgeGroupKey age)) (dec 14 100)
    /\ RiskEngine.doseMult l = or_else (get DOSE_MULTIPLIERS dose) (ofZ 1)
    /\ RiskEngine.durMult l
       = or_else (get DURATION_MULTIPLIERS (RiskEngine.getDurationKey dur))
           (ofZ 1)
    /\ RiskEngine.symptomAdder l = adder_by_count (List.length sym)
    /\ RiskEngine.symptomRiskCategory l
       = (if someHighRisk sym then "High (Severity)"
          else load_by_count (List.length sym))
    /\ RiskEngine.highSeverity l = someHighRisk sym
    /\ RiskEngine.criticalCombo l = isCritical brand combo
    /\ RiskEngine.currentRisk l
       = score (ToNumber (RiskEngine.baseRisk l))
           (ToNumber (RiskEngine.doseMult l))
           (ToNumber (RiskEngine.durMult l))
           (RiskEngine.symptomAdder l) (RiskEngine.highSeverity l) t
           (RiskEngine.criticalCombo l)
    /\ RiskEngine.finalLabel l = finalLabelOf (RiskEngine.currentRisk l).
Proof.
  unfold RiskEngine.calculate, RiskEngine.run.
  rewrite criticalComboTest_array, countRule_spec. cbn [bind].
  eexists. split; [reflexivity|]. cbn -[get getAgeGroupKey
    RiskEngine.getDurationKey or_else adder_by_count load_by_count
    someHighRisk isCritical score ToNumber].
  repeat (split; [reflexivity|]). reflexivity.
Qed.

(** The same for the build in months, which has no override. *)
Lemma run_months (age : arg) (dose : string) (dur : arg)
    (sym : list string) (t : bool) :
  let l := RiskEngineMonths.run age dose dur sym t in
  RiskEngineMonths.duration l = RiskEngineMonths.getDurationKey dur
  /\ RiskEngineMonths.baseRisk l
     = or_else (get AGE_BASELINES (getAgeGroupKey age)) (dec 14 100)
  /\ RiskEngineMonths.doseMult l = or_else (get DOSE_MULTIPLIERS dose) (ofZ 1)
  /\ RiskEngineMonths.durMult l
     = or_else
         (get DURATION_MULTIPLIERS (RiskEngineMonths.getDurationKey dur))
         (ofZ 1)
  /\ RiskEngineMonths.symptomAdder l = adder_by_count (List.length sym)
  /\ RiskEngineMonths.symptomRiskCategory l
     = (if someHighRisk sym then "High (Severity)"
        else load_by_count (List.length sym))
  /\ RiskEngineMonths.highSeverity l = someHighRisk sym
  /\ RiskEngineMonths.currentRisk l
     = score (ToNumber (RiskEngineMonths.baseRisk l))
         (ToNumber (RiskEngineMonths.doseMult l))
         (ToNumber (RiskEngineMonths.durMult l))
         (RiskEngineMonths.symptomAdder l) (RiskEngineMonths.highSeverity l)
         t false
  /\ RiskEngineMonths.finalLabel l
     = finalLabelOf (RiskEngineMonths.currentRisk l).
Proof.
  unfold RiskEngineMonths.run. rewrite countRule_spec.
  cbn -[get getAgeGroupKey RiskEngineMonths.getDurationKey or_else
    adder_by_count load_by_count someHighRisk score ToNumber].
  repeat (split; [reflexivity|]). reflexivity.
Qed.

End EngineFacts.

(** ** The finitely many scores *)

Section Scores.

Ltac split_ifs :=
  repeat match goal with
  | |- context [if ?c then _ else _] => destruct c
  end.

Ltac found := eexists; split; [reflexivity | vm_compute; tauto].

(** Whatever the age, the baseline read is one of the six table values. *)
Lemma base_in (age : arg) :
  exists b,
    or_else (get AGE_BASELINES (getAgeGroupKey age)) (dec 14 100) = VNumber b
    /\ In b bases.
Proof. unfold getAgeGroupKey. split_ifs; found. Qed.

(** A dose that does not name a property of [Object.prototype] reads one
    of the three table multipliers, or misses and defaults to 1.0. *)
Lemma dose_in (dose : string) :
  inherited dose = false ->
  exists dm,
    or_else (get DOSE_MULTIPLIERS dose) (ofZ 1) = VNumber dm
    /\ In dm doseMults.
Proof.
  intros Hi. unfold get, DOSE_MULTIPLIERS. cbn [own]. rewrite Hi.
  split_ifs; found.
Qed.

Lemma weeks_dur_in (dur : arg) :
  exists um,
    or_else (get DURATION_MULTIPLIERS (RiskEngine.getDurationKey dur))
      (ofZ 1) = VNumber um
    /\ In um durMults.
Proof. unfold RiskEngine.getDurationKey. destruct dur; split_ifs; found. Qed.

Lemma months_dur_in (dur : arg) :
  exists um,
    or_else (get DURATION_MULTIPLIERS (RiskEngineMonths.getDurationKey dur))
      (ofZ 1) = VNumber um
    /\ In um durMults.
Proof.
  unfold RiskEngineMonths.getDurationKey. destruct dur; split_ifs; found.
Qed.

Lemma adder_in (n : nat) : In (adder_by_count n) adders.
Proof. destruct n as [|[|[|[|n]]]]; cbn; tauto. Qed.

Lemma all_scores_ok_true :
  forallb (fun b => forallb (fun dm => forallb (fun um => forallb (fun ad =>
  forallb (fun hh => forallb (fun t => forallb (fun cc =>
    score_ok b dm um ad hh t cc)
  [false; true]) [false; true]) [false; true])
  adders) durMults) doseMults) bases = true.
Proof. vm_compute. reflexivity. Qed.

Lemma In_bool (b : bool) : In b [false; true].
Proof. destruct b; cbn; tauto. Qed.

Lemma forallb_In {A : Type} (f : A -> bool) (l : list A) (x : A) :
  forallb f l = true -> In x l -> f x = true.
Proof. intros H. apply (proj1 (forallb_forall f l) H). Qed.

(** Every score built from table values passes the check. *)
Lemma score_ok_tables (b dm um ad : number) (hh t cc : bool) :
  In b bases -> In dm doseMults -> In um durMults -> In ad adders ->
  score_ok b dm um ad hh t cc = true.
Proof.
  intros Hb Hdm Hum Had.
  pose proof all_scores_ok_true as H.
  apply (fun H => forallb_In _ _ b H Hb) in H; cbv beta in H.
  apply (fun H => forallb_In _ _ dm H Hdm) in H; cbv beta in H.
  apply (fun H => forallb_In _ _ um H Hum) in H; cbv beta in H.
  apply (fun H => forallb_In _ _ ad H Had) in H; cbv beta in H.
  apply (fun H => forallb_In _ _ hh H (In_bool hh)) in H; cbv beta in H.
  apply (fun H => forallb_In _ _ t H (In_bool t)) in H; cbv beta in H.
  apply (fun H => forallb_In _ _ cc H (In_bool cc)) in H; cbv beta in H.
  exact H.
Qed.

Lemma integer_between_spec (lo hi : Z) (x : number) :
  integer_between lo hi x = true ->
  exists z, lo <= z <= hi /\ x = ofZ z.
Proof.
  unfold integer_between. destruct (to_integer x) as [z|]; [|discriminate].
  intros H. apply andb_prop in H. destruct H as [H He].
  apply andb_prop in H. destruct H as [Hlo Hhi].
  exists z. split; [lia | apply number_eqb_eq; exact He].
Qed.

(** The clamp invariant for the week build, for every dose that is a
    table key or unknown to the prototype chain: the fraction lies in
    [0.05, 0.99], the percentage is an integer in [5, 99], and a
    high-severity symptom keeps the fraction at 0.75 or more. *)
Lemma weeks_score_bounds (age : arg) (dose : string) (dur : arg)
    (sym : list string) (t : bool) (brand : option string)
    (combo : list string) :
  inherited dose = false ->
  exists l,
    RiskEngine.run age dose dur sym t brand (Some combo) = Normal l
    /\ RiskEngine.calculate age dose dur sym t brand (Some combo)
       = Normal (RiskEngine.result l)
    /\ le (dec 5 100) (RiskEngine.currentRisk l) = true
    /\ le (RiskEngine.currentRisk l) (dec 99 100) = true
    /\ (exists z, 5 <= z <= 99
                  /\ RiskEngine.percentage (RiskEngine.result l) = ofZ z)
    /\ ((exists s, In s sym /\ In s HIGH_RISK) ->
        ge (RiskEngine.currentRisk l) (dec 75 100) = true
        /\ RiskEngine.symptomCat (RiskEngine.details (RiskEngine.result l))
           = "High (Severity)").
Proof.
  intros Hi.
  destruct (run_array age dose dur sym t brand combo)
    as (l & Hrun & Hcalc & _ & Hb & Hdm & Hum & Had & Hcat & Hhh & _ & Hr & _).
  destruct (base_in age) as (b & Eb & Ib).
  destruct (dose_in dose Hi) as (dm & Edm & Idm).
  destruct (weeks_dur_in dur) as (um & Eum & Ium).
  exists l. split; [exact Hrun|]. split; [exact Hcalc|].
  rewrite Hb, Eb, Hdm, Edm, Hum, Eum, Had in Hr. cbn [ToNumber] in Hr.
  pose proof (score_ok_tables b dm um (adder_by_count (List.length sym))
                (RiskEngine.highSeverity l) t (RiskEngine.criticalCombo l)
                Ib Idm Ium (adder_in _)) as Hok.
  unfold score_ok in Hok. rewrite <- Hr in Hok.
  apply andb_prop in Hok. destruct Hok as [Hok Hsev].
  apply andb_prop in Hok. destruct Hok as [Hok Hpct].
  apply andb_prop in Hok. destruct Hok as [Hlo Hhi].
  split; [exact Hlo|]. split; [exact Hhi|].
  split; [exact (integer_between_spec _ _ _ Hpct)|].
  intros Hs. apply someHighRisk_In in Hs.
  rewrite Hhh, Hs in Hsev. cbn [implb] in Hsev.
  split; [exact Hsev|].
  cbn [RiskEngine.result RiskEngine.details RiskEngine.symptomCat].
  rewrite Hcat, Hs. reflexivity.
Qed.

(** The same invariant for the build in months. *)
Lemma months_score_bounds (age : arg) (dose : string) (dur : arg)
    (sym : list string) (t : bool) :
  inherited dose = false ->
  let l := RiskEngineMonths.run age dose dur sym t in
  le (dec 5 100) (RiskEngineMonths.currentRisk l) = true
  /\ le (RiskEngineMonths.currentRisk l) (dec 99 100) = true
  /\ (exists z, 5 <= z <= 99
                /\ RiskEngineMonths.percentage
                     (RiskEngineMonths.calculate age dose dur sym t) = ofZ z)
  /\ ((exists s, In s sym /\ In s HIGH_RISK) ->
      ge (RiskEngineMonths.currentRisk l) (dec 75 100) = true
      /\ RiskEngineMonths.symptomCat
           (RiskEngineMonths.details
              (RiskEngineMonths.calculate age dose dur sym t))
         = "High (Severity)").
Proof.
  intros Hi l.
  destruct (run_months age dose dur sym t)
    as (_ & Hb & Hdm & Hum & Had & Hcat & Hhh & Hr & _).
  fold l in Hb, Hdm, Hum, Had, Hcat, Hhh, Hr.
  destruct (base_in age) as (b & Eb & Ib).
  destruct (dose_in dose Hi) as (dm & Edm & Idm).
  destruct (months_dur_in dur) as (um & Eum & Ium).
  rewrite Hb, Eb, Hdm, Edm, Hum, Eum, Had in Hr. cbn [ToNumber] in Hr.
  pose proof (score_ok_tables b dm um (adder_by_count (List.length sym))
                (RiskEngineMonths.highSeverity l) t false
                Ib Idm Ium (adder_in _)) as Hok.
  unfold score_ok in Hok. rewrite <- Hr in Hok.
  apply andb_prop in Hok. destruct Hok as [Hok Hsev].
  apply andb_prop in Hok. destruct Hok as [Hok Hpct].
  apply andb_prop in Hok. destruct Hok as [Hlo Hhi].
  split; [exact Hlo|]. split; [exact Hhi|].
  split; [exact (integer_between_spec _ _ _ Hpct)|].
  intros Hs. apply someHighRisk_In in Hs.
  rewrite Hhh, Hs in Hsev. cbn [implb] in Hsev.
  split; [exact Hsev|].
  unfold RiskEngineMonths.calculate. fold l.
  cbn [RiskEngineMonths.result RiskEngineMonths.details
       RiskEngineMonths.symptomCat].
  rewrite Hcat, Hs. reflexivity.
Qed.

End Scores.

(** ** Age brackets and duration categories *)

Section Brackets.

(** A number at or above a positive number is truthy. *)
Lemma ge_truthy (a c : number) :
  ge a c = true -> lt (S754_zero false) c = true -> truthy_number a = true.
Proof.
  unfold ge, lt. intros Hge Hpos.
  destruct a as [s|s| |s ma ea]; try reflexivity.
  - pose proof (SFltb_SFleb_trans _ _ _ Hpos Hge) as H.
    destruct s; discriminate H.
  - destruct c; discriminate Hge.
Qed.

Lemma getAgeGroupKey_falsy (age : arg) :
  arg_truthy age = false -> getAgeGroupKey age = "7-9".
Proof. intros H. unfold getAgeGroupKey. rewrite H. reflexivity. Qed.

Lemma getAgeGroupKey_number (a : number) :
  truthy_number a = true ->
  getAgeGroupKey (ANumber a) =
    if ge a (ofZ 16) then "16-18"
    else if ge a (ofZ 13) then "13-15"
    else if ge a (ofZ 10) then "10-12"
    else if ge a (ofZ 7) then "7-9"
    else if ge a (ofZ 4) then "4-6"
    else "1-3".
Proof.
  intros H. unfold getAgeGroupKey. cbn [arg_truthy arg_number].
  rewrite H. reflexivity.
Qed.

(** Below an integer bound, hence not at or above a larger one. *)
Ltac above lo hi :=
  match goal with
  | H : lt ?a (ofZ lo) = true |- _ =>
      rewrite (lt_not_ge_above a (ofZ lo) (ofZ hi) H eq_refl)
  end.

Lemma baseline_claimed (age : arg) :
  baseline_as_claimed age
    (or_else (get AGE_BASELINES (getAgeGroupKey age)) (dec 14 100)).
Proof.
  split.
  - intros H. rewrite (getAgeGroupKey_falsy age H). reflexivity.
  - intros a ->. repeat split.
    + intros H16.
      rewrite (getAgeGroupKey_number a (ge_truthy a _ H16 eq_refl)), H16.
      reflexivity.
    + intros Hge Hlt.
      rewrite (getAgeGroupKey_number a (ge_truthy a _ Hge eq_refl)).
      above 16 16. rewrite Hge. reflexivity.
    + intros Hge Hlt.
      rewrite (getAgeGroupKey_number a (ge_truthy a _ Hge eq_refl)).
      above 13 16. above 13 13. rewrite Hge. reflexivity.
    + intros Hge Hlt.
      rewrite (getAgeGroupKey_number a (ge_truthy a _ Hge eq_refl)).
      above 10 16. above 10 13. above 10 10. rewrite Hge. reflexivity.
    + intros Hge Hlt.
      rewrite (getAgeGroupKey_number a (ge_truthy a _ Hge eq_refl)).
      above 7 16. above 7 13. above 7 10. above 7 7. rewrite Hge.
      reflexivity.
    + intros Hge Hlt.
      rewrite (getAgeGroupKey_number a (ge_truthy a _ Hge eq_refl)).
      above 4 16. above 4 13. above 4 10. above 4 7. above 4 4.
      reflexivity.
Qed.

(** The week thresholds. *)
Lemma weeks_key (d : number) :
  (lt d (ofZ 4) = true -> RiskEngine.getDurationKey (ANumber d) = "short")
  /\ (ge d (ofZ 4) = true -> le d (ofZ 24) = true ->
      RiskEngine.getDurationKey (ANumber d) = "medium")
  /\ (gt d (ofZ 24) = true ->
      RiskEngine.getDurationKey (ANumber d) = "long").
Proof.
  unfold RiskEngine.getDurationKey. cbn [arg_number]. repeat split.
  - intros H. rewrite H. reflexivity.
  - intros Hge Hle. rewrite (ge_not_lt d _ Hge), Hle. reflexivity.
  - intros Hgt.
    rewrite (gt_not_lt_below d (ofZ 4) (ofZ 24) Hgt eq_refl).
    rewrite (gt_not_le d _ Hgt). reflexivity.
Qed.

(** Multiplying a duration in months by four gives the same category in
    weeks. *)
Lemma weeks_key_of_months (m : number) :
  valid_binary prec emax m = true ->
  RiskEngine.getDurationKey (ANumber (mul (ofZ 4) m))
  = RiskEngineMonths.getDurationKey (ANumber m).
Proof.
  intros Hv.
  unfold RiskEngine.getDurationKey, RiskEngineMonths.getDurationKey.
  cbn [arg_number]. unfold lt, le, SFltb, SFleb.
  pose proof (compare_mul4 m 4503599627370496 (-52) Hv ltac:(lia)) as H1.
  pose proof (compare_mul4 m 6755399441055744 (-50) Hv ltac:(lia)) as H6.
  change (S754_finite false 4503599627370496 (-52 + 2)) with (ofZ 4) in H1.
  change (S754_finite false 4503599627370496 (-52)) with (ofZ 1) in H1.
  change (S754_finite false 6755399441055744 (-50 + 2)) with (ofZ 24) in H6.
  change (S754_finite false 6755399441055744 (-50)) with (ofZ 6) in H6.
  rewrite H1, H6. reflexivity.
Qed.

End Brackets.

(** ** When a call returns *)

Section Completions.

(** The combination test returns false, without throwing, exactly when
    the brand is not ["Almont"] or [comboDrugs] is an array without
    ["Levocetirizine"]. *)
Lemma criticalComboTest_false (brand : option string)
    (comboDrugs : option (list string)) :
  (brand = Some "Almont" ->
   exists combo, comboDrugs = Some combo /\ ~ In "Levocetirizine" combo) ->
  RiskEngine.criticalComboTest brand comboDrugs = Normal false.
Proof.
  intros H. unfold RiskEngine.criticalComboTest.
  destruct brand as [b|]; [|reflexivity].
  destruct (String.eqb b "Almont") eqn:Eb; [|reflexivity].
  apply String.eqb_eq in Eb. subst b.
  destruct (H eq_refl) as (combo & -> & Hn). cbn [includes].
  destruct (existsb (String.eqb "Levocetirizine") combo) eqn:Ec;
    [|reflexivity].
  apply existsb_eqb_In in Ec. contradiction.
Qed.

(** With brand ["Almont"] and no [comboDrugs] the test throws. *)
Lemma criticalComboTest_throws (brand : option string)
    (comboDrugs : option (list string)) :
  RiskEngine.criticalComboTest brand comboDrugs = Throw TypeError
  <-> (brand = Some "Almont" /\ comboDrugs = None).
Proof.
  unfold RiskEngine.criticalComboTest. split.
  - destruct brand as [b|]; [|discriminate].
    destruct (String.eqb b "Almont") eqn:Eb; [|discriminate].
    apply String.eqb_eq in Eb. subst b.
    destruct comboDrugs as [combo|]; [discriminate|]. intros _.
    split; reflexivity.
  - intros [-> ->]. reflexivity.
Qed.

(** What [run] leaves in the locals whenever the combination test
    returns. *)
Lemma run_when_test_returns (age : arg) (dose : string) (dur : arg)
    (sym : list string) (t : bool) (brand : option string)
    (comboDrugs : option (list string)) (cc : bool) :
  RiskEngine.criticalComboTest brand comboDrugs = Normal cc ->
  exists l,
    RiskEngine.run age dose dur sym t brand comboDrugs = Normal l
    /\ RiskEngine.calculate age dose dur sym t brand comboDrugs
       = Normal (RiskEngine.result l)
    /\ RiskEngine.duration l = RiskEngine.getDurationKey dur
    /\ RiskEngine.baseRisk l
       = or_else (get AGE_BASELINES (getAgeGroupKey age)) (dec 14 100)
    /\ RiskEngine.doseMult l = or_else (get DOSE_MULTIPLIERS dose) (ofZ 1)
    /\ RiskEngine.durMult l
       = or_else (get DURATION_MULTIPLIERS (RiskEngine.getDurationKey dur))
           (ofZ 1)
    /\ RiskEngine.symptomAdder l = adder_by_count (List.length sym)
    /\ RiskEngine.symptomRiskCategory l
       = (if someHighRisk sym then "High (Severity)"
          else load_by_count (List.length sym))
    /\ RiskEngine.highSeverity l = someHighRisk sym
    /\ RiskEngine.criticalCombo l = cc
    /\ RiskEngine.currentRisk l
       = score (ToNumber (RiskEngine.baseRisk l))
           (ToNumber (RiskEngine.doseMult l))
           (ToNumber (RiskEngine.durMult l))
           (RiskEngine.symptomAdder l) (RiskEngine.highSeverity l) t
           (RiskEngine.criticalCombo l)
    /\ RiskEngine.finalLabel l = finalLabelOf (RiskEngine.currentRisk l).
Proof.
  intros Hc. unfold RiskEngine.calculate, RiskEngine.run.
  rewrite Hc, countRule_spec. cbn [bind].
  eexists. split; [reflexivity|]. cbn -[get getAgeGroupKey
    RiskEngine.getDurationKey or_else adder_by_count load_by_count
    someHighRisk score ToNumber].
  repeat (split; [reflexivity|]). reflexivity.
Qed.

(** A call of the week build returns or throws according to the
    combination test alone. *)
Lemma calculate_completion (age : arg) (dose : string) (dur : arg)
    (sym : list string) (t : bool) (brand : option string)
    (comboDrugs : option (list string)) :
  (brand = Some "Almont" /\ comboDrugs = None
   /\ RiskEngine.calculate age dose dur sym t brand comboDrugs
      = Throw TypeError)
  \/ (~ (brand = Some "Almont" /\ comboDrugs = None)
      /\ exists r,
           RiskEngine.calculate age dose dur sym t brand comboDrugs
           = Normal r).
Proof.
  destruct (RiskEngine.criticalComboTest brand comboDrugs) as [cc|[]] eqn:Ec.
  - right. split.
    + intros H. apply criticalComboTest_throws in H. congruence.
    + destruct (run_when_test_returns age dose dur sym t brand comboDrugs cc
                  Ec) as (l & _ & Hcalc & _).
      exists (RiskEngine.result l). exact Hcalc.
  - left. pose proof (proj1 (criticalComboTest_throws _ _) Ec) as [Hb Hd].
    split; [exact Hb|]. split; [exact Hd|].
    unfold RiskEngine.calculate, RiskEngine.run.
    rewrite Ec, countRule_spec. reflexivity.
Qed.

End Completions.

(** ** The properties of the specification *)

Section Claims.

(** C1, at a dose that names a property of [Object.prototype].  The read
    [DOSE_MULTIPLIERS["constructor"]] finds the inherited built-in, which
    is truthy, so the default 1.0 is not taken; the product is NaN, the
    two clamp tests are false on NaN, and [calculate] returns the
    percentage NaN with the label ["Low Risk"]: neither the fraction nor
    the percentage lies in the range [0.05, 0.99], respectively [5, 99].
    Both builds.  For every other dose the range holds, see
    [weeks_score_bounds] and [months_score_bounds]. *)
Theorem inherited_dose_escapes_clamp :
  (exists l,
     RiskEngine.run (num 8) "constructor" (num 12) [] true
       (Some "Singulair") (Some []) = Normal l
     /\ RiskEngine.calculate (num 8) "constructor" (num 12) [] true
          (Some "Singulair") (Some []) = Normal (RiskEngine.result l)
     /\ RiskEngine.doseMult l = VBuiltin "constructor"
     /\ RiskEngine.currentRisk l = NaN
     /\ le (dec 5 100) (RiskEngine.currentRisk l) = false
     /\ le (RiskEngine.currentRisk l) (dec 99 100) = false
     /\ RiskEngine.percentage (RiskEngine.result l) = NaN
     /\ integer_between 5 99 (RiskEngine.percentage (RiskEngine.result l))
        = false
     /\ RiskEngine.label (RiskEngine.result l) = "Low Risk")
  /\ (let l := RiskEngineMonths.run (num 8) "constructor" (num 3) [] true in
      RiskEngineMonths.currentRisk l = NaN
      /\ RiskEngineMonths.percentage
           (RiskEngineMonths.calculate (num 8) "constructor" (num 3) [] true)
         = NaN).
Proof.
  split.
  - eexists. split; [vm_compute; reflexivity|].
    repeat split; vm_compute; reflexivity.
  - split; vm_compute; reflexivity.
Qed.

(** C2, at the same kind of dose.  With the catalog symptom
    ["Suicide attempt"] selected, [Math.max(NaN, 0.75)] is NaN, so the
    fraction is not at least 0.75; the category is still
    ["High (Severity)"]. *)
Theorem inherited_dose_defeats_severity_floor :
  In "Suicide attempt" HIGH_RISK
  /\ exists l,
       RiskEngine.run (num 8) "constructor" (num 12) ["Suicide attempt"]
         true (Some "Singulair") (Some []) = Normal l
       /\ RiskEngine.calculate (num 8) "constructor" (num 12)
            ["Suicide attempt"] true (Some "Singulair") (Some [])
          = Normal (RiskEngine.result l)
       /\ RiskEngine.highSeverity l = true
       /\ RiskEngine.currentRisk l = NaN
       /\ ge (RiskEngine.currentRisk l) (dec 75 100) = false
       /\ RiskEngine.symptomCat (RiskEngine.details (RiskEngine.result l))
          = "High (Severity)".
Proof.
  split; [cbn; tauto|].
  eexists. split; [vm_compute; reflexivity|].
  repeat split; vm_compute; reflexivity.
Qed.

(** C3. In the extended (week) build, when [brand] is ["Almont"] and
    [comboDrugs] contains ["Levocetirizine"], [calculate] returns the
    percentage 96, the label ["High Risk"] and [isCriticalCombo = true]
    whatever the other inputs are; [symptomCat] and [hasHighSeverity] are
    still the ones the symptom steps compute, the same that any other call
    on these symptoms reports. *)
Theorem critical_combo_overrides (age : arg) (dose : string) (dur : arg)
    (sym : list string) (t : bool) (combo : list string) :
  In "Levocetirizine" combo ->
  exists r,
    RiskEngine.calculate age dose dur sym t (Some "Almont") (Some combo)
    = Normal r
    /\ RiskEngine.percentage r = ofZ 96
    /\ RiskEngine.label r = "High Risk"
    /\ RiskEngine.isCriticalCombo (RiskEngine.details r) = true
    /\ RiskEngine.symptomCat (RiskEngine.details r)
       = (if someHighRisk sym then "High (Severity)"
          else load_by_count (List.length sym))
    /\ RiskEngine.hasHighSeverity (RiskEngine.details r) = someHighRisk sym
    /\ (forall brand' combo' r',
          RiskEngine.calculate age dose dur sym t brand' combo' = Normal r' ->
          RiskEngine.symptomCat (RiskEngine.details r')
          = RiskEngine.symptomCat (RiskEngine.details r)
          /\ RiskEngine.hasHighSeverity (RiskEngine.details r')
             = RiskEngine.hasHighSeverity (RiskEngine.details r)).
Proof.
  intros Hin.
  destruct (run_array age dose dur sym t (Some "Almont") combo)
    as (l & _ & Hcalc & _ & _ & _ & _ & _ & Hcat & Hhh & Hcc & Hr & Hlab).
  rewrite (isCritical_Almont combo Hin) in Hcc.
  unfold score in Hr. rewrite Hcc in Hr. rewrite Hr in Hlab.
  exists (RiskEngine.result l). split; [exact Hcalc|].
  cbn [RiskEngine.result RiskEngine.percentage RiskEngine.label
       RiskEngine.details RiskEngine.isCriticalCombo RiskEngine.symptomCat
       RiskEngine.hasHighSeverity].
  split; [rewrite Hr; vm_compute; reflexivity|].
  split; [rewrite Hlab; vm_compute; reflexivity|].
  split; [exact Hcc|]. split; [exact Hcat|]. split; [exact Hhh|].
  intros brand' combo' r'. rewrite Hcat, Hhh.
  unfold RiskEngine.calculate, RiskEngine.run. rewrite countRule_spec.
  destruct (RiskEngine.criticalComboTest brand' combo') as [cc|e];
    cbn [bind]; [|discriminate].
  intros H. injection H as <-.
  cbn [RiskEngine.result RiskEngine.details RiskEngine.symptomCat
       RiskEngine.hasHighSeverity RiskEngine.symptomRiskCategory
       RiskEngine.highSeverity].
  split; reflexivity.
Qed.

Lemma critical_combo_overrides_witness :
  In "Levocetirizine" ["Cetirizine"; "Levocetirizine"]
  /\ exists r,
       RiskEngine.calculate (num 17) "4mg" (num 2)
         ["Anxiety"] false (Some "Almont")
         (Some ["Cetirizine"; "Levocetirizine"]) = Normal r
       /\ RiskEngine.percentage r = ofZ 96.
Proof.
  assert (H : In "Levocetirizine" ["Cetirizine"; "Levocetirizine"])
    by (simpl; tauto).
  split; [exact H|].
  destruct (critical_combo_overrides (num 17) "4mg"
              (num 2) ["Anxiety"] false
              ["Cetirizine"; "Levocetirizine"] H) as (r & Hc & Hp & _).
  exists r. split; [exact Hc | exact Hp].
Defined.

(** C4, as the code has it. With [brand] equal to ["Almont"] the
    combination test calls [comboDrugs.includes], which throws a TypeError
    when [comboDrugs] is absent, so [calculate] does not return for every
    [comboDrugs] value. *)
Lemma calculate_absent_comboDrugs_throws :
  RiskEngine.calculate (num 8) "5mg" (num 12) [] true (Some "Almont") None
  = Throw TypeError
  /\ ~ (exists r,
          RiskEngine.calculate (num 8) "5mg" (num 12) [] true (Some "Almont") None
          = Normal r).
Proof.
  assert (H : RiskEngine.calculate (num 8) "5mg" (num 12) [] true
                (Some "Almont") None = Throw TypeError) by reflexivity.
  split; [exact H|]. intros [r Hr]. rewrite H in Hr. discriminate.
Qed.

(** C4, amended. With age and duration a number, [undefined], [null] or
    the empty string, the dose a string and the flag a boolean, a call of
    [calculate] throws a TypeError exactly when the symptom list is absent
    or, in the week build, when [brand] is ["Almont"] and [comboDrugs] is
    absent; in every other case it returns a result.  So [calculate] is
    total provided the symptom list is an array and [comboDrugs] is an
    array whenever the brand is ["Almont"]. *)
Theorem calculate_total (age : arg) (dose : string) (dur : arg)
    (selectedSymptoms : option (list string)) (t : bool)
    (brand : option string) (comboDrugs : option (list string)) :
  (RiskEngineCall.calculate age dose dur selectedSymptoms t brand comboDrugs
   = Throw TypeError
   <-> (selectedSymptoms = None
        \/ (brand = Some "Almont" /\ comboDrugs = None)))
  /\ (selectedSymptoms <> None ->
      (brand = Some "Almont" -> comboDrugs <> None) ->
      exists r,
        RiskEngineCall.calculate age dose dur selectedSymptoms t brand
          comboDrugs = Normal r)
  /\ (RiskEngineCall.calculateMonths age dose dur selectedSymptoms t
      = Throw TypeError
      <-> selectedSymptoms = None)
  /\ (selectedSymptoms <> None ->
      exists r,
        RiskEngineCall.calculateMonths age dose dur selectedSymptoms t
        = Normal r).
Proof.
  unfold RiskEngineCall.calculate, RiskEngineCall.calculateMonths.
  destruct selectedSymptoms as [sym|]; cbn [RiskEngineCall.arrayOf bind].
  - destruct (calculate_completion age dose dur sym t brand comboDrugs)
      as [(Hb & Hd & Hc)|(Hn & r & Hr)].
    + split; [split; [intros _; right; split; assumption
                     | intros _; exact Hc]|].
      split; [intros _ H; exfalso; exact (H Hb Hd)|].
      split; [split; discriminate|]. intros _. eexists. reflexivity.
    + split.
      { split.
        - intros H. rewrite Hr in H. discriminate H.
        - intros [H|H]; [discriminate H | contradiction]. }
      split; [intros _ _; exists r; exact Hr|].
      split; [split; discriminate|]. intros _. eexists. reflexivity.
  - split; [split; [intros _; left; reflexivity | reflexivity]|].
    split; [intros H; contradiction|].
    split; [split; reflexivity|]. intros H. contradiction.
Qed.

Lemma calculate_total_witness :
  (exists r,
     RiskEngineCall.calculate (num 17) "4mg" (num 2) (Some ["Anxiety"]) false
       (Some "Singulair") None = Normal r)
  /\ (exists r,
        RiskEngineCall.calculate AUndefined "toString" AEmptyString (Some [])
          true (Some "Almont") (Some []) = Normal r)
  /\ (exists r,
        RiskEngineCall.calculateMonths (num 17) "4mg" (num 2)
          (Some ["Anxiety"]) false = Normal r).
Proof.
  split; [|split].
  - apply (proj1 (proj2 (calculate_total (num 17) "4mg" (num 2)
                           (Some ["Anxiety"]) false (Some "Singulair") None))).
    + discriminate.
    + intros H. discriminate H.
  - apply (proj1 (proj2 (calculate_total AUndefined "toString" AEmptyString
                           (Some []) true (Some "Almont") (Some [])))).
    + discriminate.
    + intros _ H. discriminate H.
  - apply (proj2 (proj2 (proj2 (calculate_total (num 17) "4mg" (num 2)
                                  (Some ["Anxiety"]) false None None)))).
    discriminate.
Defined.

(** C5. The label returned by [calculate] is read off the clamped
    fraction by the cut points 0.70 and 0.30, in both builds.  It is not
    read off the rounded percentage: one symptom at age 17 on 10mg for 30
    weeks with a temporal association scores just under 0.30, which is
    reported as 30 percent and ["Low Risk"]. *)
Theorem label_from_clamped_fraction :
  (forall age dose dur sym t brand combo,
     exists l,
       RiskEngine.run age dose dur sym t brand (Some combo) = Normal l
       /\ RiskEngine.calculate age dose dur sym t brand (Some combo)
          = Normal (RiskEngine.result l)
       /\ (exists pre, RiskEngine.currentRisk l = clamp pre)
       /\ RiskEngine.label (RiskEngine.result l)
          = (if ge (RiskEngine.currentRisk l) (dec 70 100) then "High Risk"
             else if ge (RiskEngine.currentRisk l) (dec 30 100)
                  then "Moderate Risk"
             else "Low Risk"))
  /\ (forall age dose dur sym t,
        let l := RiskEngineMonths.run age dose dur sym t in
        (exists pre, RiskEngineMonths.currentRisk l = clamp pre)
        /\ RiskEngineMonths.label
             (RiskEngineMonths.calculate age dose dur sym t)
           = (if ge (RiskEngineMonths.currentRisk l) (dec 70 100)
              then "High Risk"
              else if ge (RiskEngineMonths.currentRisk l) (dec 30 100)
                   then "Moderate Risk"
              else "Low Risk"))
  /\ (exists l,
        RiskEngine.run (num 17) "10mg" (num 30) ["Anxiety"] true
          (Some "Singulair") (Some []) = Normal l
        /\ lt (RiskEngine.currentRisk l) (dec 30 100) = true
        /\ RiskEngine.percentage (RiskEngine.result l) = ofZ 30
        /\ RiskEngine.label (RiskEngine.result l) = "Low Risk").
Proof.
  split; [|split].
  - intros age dose dur sym t brand combo.
    destruct (run_array age dose dur sym t brand combo)
      as (l & Hrun & Hcalc & _ & _ & _ & _ & _ & _ & _ & _ & Hr & Hlab).
    exists l. split; [exact Hrun|]. split; [exact Hcalc|].
    split; [eexists; exact Hr|].
    cbn [RiskEngine.result RiskEngine.label]. exact Hlab.
  - intros age dose dur sym t l.
    destruct (run_months age dose dur sym t)
      as (_ & _ & _ & _ & _ & _ & _ & Hr & Hlab).
    fold l in Hr, Hlab.
    split; [eexists; exact Hr|]. exact Hlab.
  - eexists. split; [vm_compute; reflexivity|].
    repeat split; vm_compute; reflexivity.
Qed.

(** C6. The baseline [calculate] reports is 0.14 from age 16 on, 0.325 in
    [13,16), 0.535 in [10,13), 0.69 in [7,10), 0.85 in [4,7) and 0.94 in
    [1,4); a falsy age (0, NaN, [undefined], [null], the empty string)
    takes 0.69, the baseline of the bracket [7,10).  Both builds. *)
Theorem age_baselines (age : arg) (dose : string) (dur : arg)
    (sym : list string) (t : bool) (brand : option string)
    (combo : list string) :
  (exists r,
     RiskEngine.calculate age dose dur sym t brand (Some combo) = Normal r
     /\ baseline_as_claimed age (RiskEngine.base (RiskEngine.details r)))
  /\ baseline_as_claimed age
       (RiskEngineMonths.base
          (RiskEngineMonths.details
             (RiskEngineMonths.calculate age dose dur sym t))).
Proof.
  split.
  - destruct (run_array age dose dur sym t brand combo)
      as (l & _ & Hcalc & _ & Hb & _).
    exists (RiskEngine.result l). split; [exact Hcalc|].
    cbn [RiskEngine.result RiskEngine.details RiskEngine.base].
    rewrite Hb. apply baseline_claimed.
  - destruct (run_months age dose dur sym t) as (_ & Hb & _).
    unfold RiskEngineMonths.calculate.
    cbn [RiskEngineMonths.result RiskEngineMonths.details
         RiskEngineMonths.base].
    rewrite Hb. apply baseline_claimed.
Qed.

Lemma age_baselines_witness :
  RiskEngineMonths.base
    (RiskEngineMonths.details
       (RiskEngineMonths.calculate (num 14) "4mg" (num 2) [] false))
  = VNumber (dec 325 1000)
  /\ RiskEngineMonths.base
       (RiskEngineMonths.details
          (RiskEngineMonths.calculate ANull "4mg" (num 2) [] false))
     = VNumber (dec 69 100).
Proof.
  split.
  - refine (proj1 (proj2 (proj2 (proj2 (age_baselines (num 14) "4mg" (num 2)
              [] false None [])) (ofZ 14) eq_refl)) _ _); reflexivity.
  - refine (proj1 (proj2 (age_baselines ANull "4mg" (num 2) [] false None
              [])) _); reflexivity.
Defined.

(** C7. In the week build an empty-string or [null] duration is
    ["medium"]; a number below 4 is ["short"], from 4 to 24 inclusive
    ["medium"], above 24 ["long"]; and the multiplier [calculate] applies
    is 1.0 for short, 1.1 for medium and 1.2 for long. *)
Theorem weeks_duration_category :
  RiskEngine.getDurationKey AEmptyString = "medium"
  /\ RiskEngine.getDurationKey ANull = "medium"
  /\ (forall d,
        (lt d (ofZ 4) = true ->
         RiskEngine.getDurationKey (ANumber d) = "short")
        /\ (ge d (ofZ 4) = true -> le d (ofZ 24) = true ->
            RiskEngine.getDurationKey (ANumber d) = "medium")
        /\ (gt d (ofZ 24) = true ->
            RiskEngine.getDurationKey (ANumber d) = "long"))
  /\ (forall age dose dur sym t brand combo,
        exists l,
          RiskEngine.run age dose dur sym t brand (Some combo) = Normal l
          /\ RiskEngine.duration l = RiskEngine.getDurationKey dur
          /\ ((RiskEngine.duration l = "short"
               /\ RiskEngine.durMult l = VNumber (ofZ 1))
              \/ (RiskEngine.duration l = "medium"
                  /\ RiskEngine.durMult l = VNumber (dec 11 10))
              \/ (RiskEngine.duration l = "long"
                  /\ RiskEngine.durMult l = VNumber (dec 12 10)))
          /\ RiskEngine.currentRisk l
             = score (ToNumber (RiskEngine.baseRisk l))
                 (ToNumber (RiskEngine.doseMult l))
                 (ToNumber (RiskEngine.durMult l))
                 (RiskEngine.symptomAdder l) (RiskEngine.highSeverity l) t
                 (RiskEngine.criticalCombo l)).
Proof.
  split; [reflexivity|]. split; [reflexivity|]. split; [exact weeks_key|].
  intros age dose dur sym t brand combo.
  destruct (run_array age dose dur sym t brand combo)
    as (l & Hrun & _ & Hd & _ & _ & Hum & _ & _ & _ & _ & Hr & _).
  exists l. split; [exact Hrun|]. split; [exact Hd|].
  split; [|exact Hr].
  rewrite Hd, Hum.
  assert (Es : or_else (get DURATION_MULTIPLIERS "short") (ofZ 1)
               = VNumber (ofZ 1)) by (vm_compute; reflexivity).
  assert (Em : or_else (get DURATION_MULTIPLIERS "medium") (ofZ 1)
               = VNumber (dec 11 10)) by (vm_compute; reflexivity).
  assert (El : or_else (get DURATION_MULTIPLIERS "long") (ofZ 1)
               = VNumber (dec 12 10)) by (vm_compute; reflexivity).
  assert (Hnum : forall x,
            let k := if lt x (ofZ 4) then "short"
                     else if le x (ofZ 24) then "medium" else "long" in
            (k = "short"
             /\ or_else (get DURATION_MULTIPLIERS k) (ofZ 1)
                = VNumber (ofZ 1))
            \/ (k = "medium"
                /\ or_else (get DURATION_MULTIPLIERS k) (ofZ 1)
                   = VNumber (dec 11 10))
            \/ (k = "long"
                /\ or_else (get DURATION_MULTIPLIERS k) (ofZ 1)
                   = VNumber (dec 12 10))).
  { intros x k. subst k. destruct (lt x (ofZ 4)); [left; auto|].
    destruct (le x (ofZ 24)); [right; left; auto | right; right; auto]. }
  unfold RiskEngine.getDurationKey.
  destruct dur as [| | |d].
  - exact (Hnum (arg_number AUndefined)).
  - right; left; auto.
  - right; left; auto.
  - exact (Hnum (arg_number (ANumber d))).
Qed.

Lemma weeks_duration_category_witness :
  RiskEngine.getDurationKey (num 2) = "short"
  /\ RiskEngine.getDurationKey (num 24) = "medium"
  /\ RiskEngine.getDurationKey (num 30) = "long".
Proof.
  pose proof weeks_duration_category as (_ & _ & H & _).
  split; [|split].
  - apply (proj1 (H (ofZ 2))). reflexivity.
  - apply (proj1 (proj2 (H (ofZ 24)))); reflexivity.
  - apply (proj2 (proj2 (H (ofZ 30)))). reflexivity.
Defined.

(** C8. The adder of the count rule is a step function of the length of
    the symptom list (0 adds 0.0, 1 adds 0.05, 2 or 3 add 0.10, 4 or more
    add 0.25) and the symptom-load category is ["Low"] for 0 and 1,
    ["Moderate"] for 2 and 3 and ["High"] from 4 on.  [calculate] adds
    that adder to the product of baseline, dose multiplier and duration
    multiplier before the severity, temporal and clamping steps, and
    reports that category unless a high-severity symptom replaces it. *)
Theorem symptom_count_rule (sym : list string) :
  let n := List.length sym in
  (n = 0%nat -> countRule n = ("Low", ofZ 0))
  /\ (n = 1%nat -> countRule n = ("Low", dec 5 100))
  /\ ((2 <= n <= 3)%nat -> countRule n = ("Moderate", dec 10 100))
  /\ ((4 <= n)%nat -> countRule n = ("High", dec 25 100))
  /\ (forall age dose dur t brand combo,
        exists l,
          RiskEngine.run age dose dur sym t brand (Some combo) = Normal l
          /\ RiskEngine.symptomAdder l = snd (countRule n)
          /\ RiskEngine.symptomRiskCategory l
             = (if RiskEngine.highSeverity l then "High (Severity)"
                else fst (countRule n))
          /\ RiskEngine.currentRisk l
             = clamp
                 (let risk :=
                    add (mul (mul (ToNumber (RiskEngine.baseRisk l))
                                  (ToNumber (RiskEngine.doseMult l)))
                             (ToNumber (RiskEngine.durMult l)))
                        (snd (countRule n)) in
                  let risk :=
                    if RiskEngine.highSeverity l
                    then Math_max risk (dec 75 100) else risk in
                  let risk :=
                    if t then mul risk (dec 115 100) else risk in
                  if RiskEngine.criticalCombo l then dec 96 100 else risk)
          /\ RiskEngine.calculate age dose dur sym t brand (Some combo)
             = Normal (RiskEngine.result l)
          /\ RiskEngine.percentage (RiskEngine.result l)
             = Math_round (mul (RiskEngine.currentRisk l) (ofZ 100))
          /\ RiskEngine.label (RiskEngine.result l)
             = finalLabelOf (RiskEngine.currentRisk l))
  /\ (forall age dose dur t,
        let l := RiskEngineMonths.run age dose dur sym t in
        RiskEngineMonths.symptomAdder l = snd (countRule n)
        /\ RiskEngineMonths.symptomRiskCategory l
           = (if RiskEngineMonths.highSeverity l then "High (Severity)"
              else fst (countRule n))
        /\ RiskEngineMonths.currentRisk l
           = clamp
               (let risk :=
                  add (mul (mul (ToNumber (RiskEngineMonths.baseRisk l))
                                (ToNumber (RiskEngineMonths.doseMult l)))
                           (ToNumber (RiskEngineMonths.durMult l)))
                      (snd (countRule n)) in
                let risk :=
                  if RiskEngineMonths.highSeverity l
                  then Math_max risk (dec 75 100) else risk in
                if t then mul risk (dec 115 100) else risk)
        /\ RiskEngineMonths.percentage
             (RiskEngineMonths.calculate age dose dur sym t)
           = Math_round (mul (RiskEngineMonths.currentRisk l) (ofZ 100))
        /\ RiskEngineMonths.label
             (RiskEngineMonths.calculate age dose dur sym t)
           = finalLabelOf (RiskEngineMonths.currentRisk l)).
Proof.
  intros n.
  pose proof (count_rule_steps n) as (H0 & H1 & H23 & H4).
  split; [exact H0|]. split; [exact H1|]. split; [exact H23|].
  split; [exact H4|].
  split.
  - intros age dose dur t brand combo.
    destruct (run_array age dose dur sym t brand combo)
      as (l & Hrun & Hcalc & _ & _ & _ & _ & Had & Hcat & Hhh & _ & Hr
          & Hlab).
    rewrite countRule_spec. cbn [fst snd].
    exists l. split; [exact Hrun|]. split; [exact Had|].
    split; [rewrite Hhh; exact Hcat|].
    split; [rewrite Hr, Had; reflexivity|].
    split; [exact Hcalc|].
    split; [reflexivity | exact Hlab].
  - intros age dose dur t l.
    destruct (run_months age dose dur sym t)
      as (_ & _ & _ & _ & Had & Hcat & Hhh & Hr & Hlab).
    fold l in Had, Hcat, Hhh, Hr, Hlab.
    rewrite countRule_spec. cbn [fst snd]. split; [exact Had|].
    split; [rewrite Hhh; exact Hcat|].
    split; [rewrite Hr, Had; reflexivity|].
    split; [reflexivity | exact Hlab].
Qed.

Lemma symptom_count_rule_witness :
  countRule (List.length ["Anxiety"; "Fatigue"; "Nightmares"])
  = ("Moderate", dec 10 100)
  /\ countRule (List.length ["Anxiety"; "Fatigue"; "Nightmares";
                              "Irritability"; "Restlessness"])
     = ("High", dec 25 100).
Proof.
  split.
  - apply (symptom_count_rule ["Anxiety"; "Fatigue"; "Nightmares"]).
    simpl; lia.
  - apply (symptom_count_rule ["Anxiety"; "Fatigue"; "Nightmares";
                               "Irritability"; "Restlessness"]).
    simpl; lia.
Defined.




(** C10, as the code has it.  With brand ["Almont"] and [comboDrugs]
    absent the critical combination does not apply ([comboDrugs] contains
    nothing), the build in months returns for 3 months, and the build in
    weeks called with [4 * 3] weeks throws instead of returning the same
    percentage. *)
Lemma months_build_returns_where_weeks_throws :
  (forall combo, @None (list string) = Some combo ->
                 ~ In "Levocetirizine" combo)
  /\ RiskEngineMonths.percentage
       (RiskEngineMonths.calculate (num 8) "5mg" (num 3) [] true) = ofZ 96
  /\ RiskEngine.calculate (num 8) "5mg" (ANumber (mul (ofZ 4) (ofZ 3))) []
       true (Some "Almont") None = Throw TypeError
  /\ ~ (exists r,
          RiskEngine.calculate (num 8) "5mg" (ANumber (mul (ofZ 4) (ofZ 3)))
            [] true (Some "Almont") None = Normal r
          /\ RiskEngine.percentage r
             = RiskEngineMonths.percentage
                 (RiskEngineMonths.calculate (num 8) "5mg" (num 3) [] true)).
Proof.
  assert (H : RiskEngine.calculate (num 8) "5mg"
                (ANumber (mul (ofZ 4) (ofZ 3))) [] true (Some "Almont") None
              = Throw TypeError) by reflexivity.
  split; [intros combo E; discriminate E|].
  split; [vm_compute; reflexivity|]. split; [exact H|].
  intros (r & Hr & _). rewrite H in Hr. discriminate Hr.
Qed.

(** C10, amended.  For every binary64 number of months [m], the build in
    months called with [m] and the build in weeks called with [4 * m]
    return the same percentage, label, baseline, symptom category and
    high-severity flag, whenever the brand of the week call is not
    ["Almont"] (whatever [comboDrugs] is, also absent) or its [comboDrugs]
    is an array without ["Levocetirizine"]. *)
Theorem months_build_matches_weeks (age : arg) (dose : string) (m : number)
    (sym : list string) (t : bool) (brand : option string)
    (comboDrugs : option (list string)) :
  valid_binary prec emax m = true ->
  (brand = Some "Almont" ->
   exists combo, comboDrugs = Some combo /\ ~ In "Levocetirizine" combo) ->
  exists r,
    RiskEngine.calculate age dose (ANumber (mul (ofZ 4) m)) sym t brand
      comboDrugs = Normal r
    /\ let r' := RiskEngineMonths.calculate age dose (ANumber m) sym t in
       RiskEngine.percentage r = RiskEngineMonths.percentage r'
       /\ RiskEngine.label r = RiskEngineMonths.label r'
       /\ RiskEngine.base (RiskEngine.details r)
          = RiskEngineMonths.base (RiskEngineMonths.details r')
       /\ RiskEngine.symptomCat (RiskEngine.details r)
          = RiskEngineMonths.symptomCat (RiskEngineMonths.details r')
       /\ RiskEngine.hasHighSeverity (RiskEngine.details r)
          = RiskEngineMonths.hasHighSeverity (RiskEngineMonths.details r').
Proof.
  intros Hv Hno.
  destruct (run_when_test_returns age dose (ANumber (mul (ofZ 4) m)) sym t
              brand comboDrugs false (criticalComboTest_false _ _ Hno))
    as (l & _ & Hcalc & _ & Hb & Hdm & Hum & Had & Hcat & Hhh & Hcc & Hr
        & Hlab).
  destruct (run_months age dose (ANumber m) sym t)
    as (_ & Hb' & Hdm' & Hum' & Had' & Hcat' & Hhh' & Hr' & Hlab').
  set (l' := RiskEngineMonths.run age dose (ANumber m) sym t) in *.
  rewrite (weeks_key_of_months m Hv) in Hum.
  assert (Er : RiskEngine.currentRisk l = RiskEngineMonths.currentRisk l').
  { rewrite Hr, Hr', Hb, Hb', Hdm, Hdm', Hum, Hum', Had, Had', Hhh, Hhh', Hcc.
    reflexivity. }
  exists (RiskEngine.result l). split; [exact Hcalc|].
  unfold RiskEngineMonths.calculate. fold l'.
  cbn [RiskEngine.result RiskEngine.percentage RiskEngine.label
       RiskEngine.details RiskEngine.base RiskEngine.symptomCat
       RiskEngine.hasHighSeverity
       RiskEngineMonths.result RiskEngineMonths.percentage
       RiskEngineMonths.label RiskEngineMonths.details RiskEngineMonths.base
       RiskEngineMonths.symptomCat RiskEngineMonths.hasHighSeverity].
  split; [rewrite Er; reflexivity|].
  split; [rewrite Hlab, Hlab', Er; reflexivity|].
  split; [rewrite Hb, Hb'; reflexivity|].
  split; [rewrite Hcat, Hcat'; reflexivity|].
  rewrite Hhh, Hhh'. reflexivity.
Qed.

Lemma months_build_matches_weeks_witness :
  (exists r,
     RiskEngine.calculate (num 8) "5mg" (ANumber (mul (ofZ 4) (ofZ 3))) []
       true None None = Normal r
     /\ RiskEngine.percentage r
        = RiskEngineMonths.percentage
            (RiskEngineMonths.calculate (num 8) "5mg" (num 3) [] true))
  /\ (exists r,
        RiskEngine.calculate (num 17) "4mg"
          (ANumber (mul (ofZ 4) (dec 5 10))) ["Anxiety"] false
          (Some "Almont") (Some ["Cetirizine"]) = Normal r
        /\ RiskEngine.percentage r
           = RiskEngineMonths.percentage
               (RiskEngineMonths.calculate (num 17) "4mg"
                  (ANumber (dec 5 10)) ["Anxiety"] false)).
Proof.
  split.
  - assert (Hv : valid_binary prec emax (ofZ 3) = true) by reflexivity.
    assert (Hno : @None string = Some "Almont" ->
                  exists combo, @None (list string) = Some combo
                                /\ ~ In "Levocetirizine" combo).
    { intros H. discriminate H. }
    destruct (months_build_matches_weeks (num 8) "5mg" (ofZ 3) [] true
                None None Hv Hno) as (r & Hc & Hp & _).
    exists r. split; [exact Hc | exact Hp].
  - assert (Hv : valid_binary prec emax (dec 5 10) = true) by reflexivity.
    assert (Hno : Some "Almont" = Some "Almont" ->
                  exists combo, Some ["Cetirizine"] = Some combo
                                /\ ~ In "Levocetirizine" combo).
    { intros _. exists ["Cetirizine"]. split; [reflexivity|].
      intros [H|[]]. discriminate H. }
    destruct (months_build_matches_weeks (num 17) "4mg" (dec 5 10)
                ["Anxiety"] false (Some "Almont") (Some ["Cetirizine"])
                Hv Hno) as (r & Hc & Hp & _).
    exists r. split; [exact Hc | exact Hp].
Defined.

(** The second worked example of the specification: age 17, 4mg, two
    weeks, the single symptom ["Anxiety"], no temporal association, scores
    0.14 + 0.05 and is reported as 19 percent, ["Low Risk"]. *)
Example example_age17_4mg_2weeks :
  exists l,
    RiskEngine.run (num 17) "4mg" (num 2) ["Anxiety"] false
      (Some "Singulair") (Some []) = Normal l
    /\ RiskEngine.baseRisk l = VNumber (dec 14 100)
    /\ RiskEngine.currentRisk l = add (dec 14 100) (dec 5 100)
    /\ within (RiskEngine.currentRisk l) 19 100 (10 ^ 15) = true
    /\ RiskEngine.percentage (RiskEngine.result l) = ofZ 19
    /\ RiskEngine.label (RiskEngine.result l) = "Low Risk".
Proof.
  eexists. split; [vm_compute; reflexivity|].
  repeat split; vm_compute; reflexivity.
Qed.

End Claims.

(** * Further properties *)

(** ** Closed forms and the finite checks behind them *)

Section ClosedForms.

Lemma weeks_closed_form (age : arg) (dose : string) (dur : arg)
    (sym : list string) (t : bool) (brand : option string)
    (combo : list string) :
  RiskEngine.calculate age dose dur sym t brand (Some combo)
  = Normal
      {| RiskEngine.percentage :=
           percentOf (weeksScore age dose dur sym t brand combo);
         RiskEngine.label :=
           finalLabelOf (weeksScore age dose dur sym t brand combo);
         RiskEngine.details :=
           {| RiskEngine.base :=
                or_else (get AGE_BASELINES (getAgeGroupKey age)) (dec 14 100);
              RiskEngine.symptomCat :=
                if someHighRisk sym then "High (Severity)"
                else load_by_count (List.length sym);
              RiskEngine.hasHighSeverity := someHighRisk sym;
              RiskEngine.isCriticalCombo := isCritical brand combo |} |}.
Proof.
  unfold RiskEngine.calculate, RiskEngine.run.
  rewrite criticalComboTest_array, countRule_spec. reflexivity.
Qed.

Lemma months_closed_form (age : arg) (dose : string) (dur : arg)
    (sym : list string) (t : bool) :
  RiskEngineMonths.calculate age dose dur sym t
  = {| RiskEngineMonths.percentage :=
         percentOf (monthsScore age dose dur sym t);
       RiskEngineMonths.label :=
         finalLabelOf (monthsScore age dose dur sym t);
       RiskEngineMonths.details :=
         {| RiskEngineMonths.base :=
              or_else (get AGE_BASELINES (getAgeGroupKey age)) (dec 14 100);
            RiskEngineMonths.symptomCat :=
              if someHighRisk sym then "High (Severity)"
              else load_by_count (List.length sym);
            RiskEngineMonths.hasHighSeverity := someHighRisk sym |} |}.
Proof.
  unfold RiskEngineMonths.calculate, RiskEngineMonths.run.
  rewrite countRule_spec. reflexivity.
Qed.

Lemma baseOf_in (age : arg) : In (baseOf age) bases.
Proof.
  unfold baseOf. destruct (base_in age) as (b & E & I). rewrite E. exact I.
Qed.

Lemma doseOf_in (dose : string) :
  inherited dose = false -> In (doseOf dose) doseMults.
Proof.
  intros H. unfold doseOf. destruct (dose_in dose H) as (b & E & I).
  rewrite E. exact I.
Qed.

Lemma weeksDurOf_in (dur : arg) : In (weeksDurOf dur) durMults.
Proof.
  unfold weeksDurOf. destruct (weeks_dur_in dur) as (b & E & I).
  rewrite E. exact I.
Qed.

Lemma monthsDurOf_in (dur : arg) : In (monthsDurOf dur) durMults.
Proof.
  unfold monthsDurOf. destruct (months_dur_in dur) as (b & E & I).
  rewrite E. exact I.
Qed.

Lemma all_facts_ok :
  forallb (fun b => forallb (fun dm => forallb (fun um => forallb (fun ad =>
  forallb (fun hh => forallb (fun t => forallb (fun cc =>
    facts_ok b dm um ad hh t cc)
  [false; true]) [false; true]) [false; true])
  adders) durMults) doseMults) bases = true.
Proof. vm_compute. reflexivity. Qed.

Lemma facts_ok_tables (b dm um ad : number) (hh t cc : bool) :
  In b bases -> In dm doseMults -> In um durMults -> In ad adders ->
  facts_ok b dm um ad hh t cc = true.
Proof.
  intros Hb Hdm Hum Had.
  pose proof all_facts_ok as H.
  apply (fun H => forallb_In _ _ b H Hb) in H; cbv beta in H.
  apply (fun H => forallb_In _ _ dm H Hdm) in H; cbv beta in H.
  apply (fun H => forallb_In _ _ um H Hum) in H; cbv beta in H.
  apply (fun H => forallb_In _ _ ad H Had) in H; cbv beta in H.
  apply (fun H => forallb_In _ _ hh H (In_bool hh)) in H; cbv beta in H.
  apply (fun H => forallb_In _ _ t H (In_bool t)) in H; cbv beta in H.
  apply (fun H => forallb_In _ _ cc H (In_bool cc)) in H; cbv beta in H.
  exact H.
Qed.

Lemma all_temporal_ok :
  forallb (fun b => forallb (fun dm => forallb (fun um => forallb (fun ad =>
  forallb (fun hh => forallb (fun cc =>
    temporal_ok b dm um ad hh cc)
  [false; true]) [false; true])
  adders) durMults) doseMults) bases = true.
Proof. vm_compute. reflexivity. Qed.

Lemma temporal_ok_tables (b dm um ad : number) (hh cc : bool) :
  In b bases -> In dm doseMults -> In um durMults -> In ad adders ->
  temporal_ok b dm um ad hh cc = true.
Proof.
  intros Hb Hdm Hum Had.
  pose proof all_temporal_ok as H.
  apply (fun H => forallb_In _ _ b H Hb) in H; cbv beta in H.
  apply (fun H => forallb_In _ _ dm H Hdm) in H; cbv beta in H.
  apply (fun H => forallb_In _ _ um H Hum) in H; cbv beta in H.
  apply (fun H => forallb_In _ _ ad H Had) in H; cbv beta in H.
  apply (fun H => forallb_In _ _ hh H (In_bool hh)) in H; cbv beta in H.
  apply (fun H => forallb_In _ _ cc H (In_bool cc)) in H; cbv beta in H.
  exact H.
Qed.

Lemma all_symptom_ok :
  forallb (fun b => forallb (fun dm => forallb (fun um => forallb (fun t =>
  forallb (fun cc => forallb (fun a2 => forallb (fun h2 =>
    symptom_ok b dm um t cc a2 h2)
  severity_steps) adder_steps) [false; true]) [false; true])
  durMults) doseMults) bases = true.
Proof. vm_compute. reflexivity. Qed.

Lemma symptom_ok_tables (b dm um : number) (t cc : bool)
    (a2 : number * number) (h2 : bool * bool) :
  In b bases -> In dm doseMults -> In um durMults ->
  In a2 adder_steps -> In h2 severity_steps ->
  symptom_ok b dm um t cc a2 h2 = true.
Proof.
  intros Hb Hdm Hum Ha Hh.
  pose proof all_symptom_ok as H.
  apply (fun H => forallb_In _ _ b H Hb) in H; cbv beta in H.
  apply (fun H => forallb_In _ _ dm H Hdm) in H; cbv beta in H.
  apply (fun H => forallb_In _ _ um H Hum) in H; cbv beta in H.
  apply (fun H => forallb_In _ _ t H (In_bool t)) in H; cbv beta in H.
  apply (fun H => forallb_In _ _ cc H (In_bool cc)) in H; cbv beta in H.
  apply (fun H => forallb_In _ _ a2 H Ha) in H; cbv beta in H.
  apply (fun H => forallb_In _ _ h2 H Hh) in H; cbv beta in H.
  exact H.
Qed.

(** The facts for the score of a call, in each build. *)
Lemma weeks_facts (age : arg) (dose : string) (dur : arg)
    (sym : list string) (t : bool) (brand : option string)
    (combo : list string) :
  inherited dose = false ->
  facts_ok (baseOf age) (doseOf dose) (weeksDurOf dur)
    (adder_by_count (List.length sym)) (someHighRisk sym) t
    (isCritical brand combo) = true.
Proof.
  intros H. apply facts_ok_tables;
    [apply baseOf_in | apply doseOf_in; exact H | apply weeksDurOf_in
    | apply adder_in].
Qed.

Lemma months_facts (age : arg) (dose : string) (dur : arg)
    (sym : list string) (t : bool) :
  inherited dose = false ->
  facts_ok (baseOf age) (doseOf dose) (monthsDurOf dur)
    (adder_by_count (List.length sym)) (someHighRisk sym) t false = true.
Proof.
  intros H. apply facts_ok_tables;
    [apply baseOf_in | apply doseOf_in; exact H | apply monthsDurOf_in
    | apply adder_in].
Qed.

Lemma finalLabelOf_cases (r : number) :
  finalLabelOf r = "High Risk" \/ finalLabelOf r = "Moderate Risk"
  \/ finalLabelOf r = "Low Risk".
Proof.
  unfold finalLabelOf. destruct (ge r (dec 70 100)); [left; reflexivity|].
  destruct (ge r (dec 30 100)); [right; left | right; right]; reflexivity.
Qed.

End ClosedForms.

(** ** Further properties of the engine *)

Section EngineProperties.

Lemma dose_miss (dose : string) :
  ~ In dose ["4mg"; "5mg"; "10mg"] -> inherited dose = false ->
  or_else (get DOSE_MULTIPLIERS dose) (ofZ 1)
  = or_else (get DOSE_MULTIPLIERS "4mg") (ofZ 1).
Proof.
  intros Hk Hi. unfold get at 1. unfold DOSE_MULTIPLIERS at 1. cbn [own].
  destruct (String.eqb_spec "4mg" dose) as [E|_];
    [exfalso; apply Hk; cbn; tauto|].
  destruct (String.eqb_spec "5mg" dose) as [E|_];
    [exfalso; apply Hk; cbn; tauto|].
  destruct (String.eqb_spec "10mg" dose) as [E|_];
    [exfalso; apply Hk; cbn; tauto|].
  rewrite Hi. vm_compute. reflexivity.
Qed.

(** X1. The dose multipliers are 1.0 for 4mg, 1.1 for 5mg and 1.25 for
    10mg, and a dose that is none of these and does not name a property of
    [Object.prototype] is scored exactly like 4mg, whatever the other
    arguments are (also when [comboDrugs] is absent), in both builds. *)
Theorem unknown_dose_scored_as_4mg :
  (doseOf "4mg" = ofZ 1 /\ doseOf "5mg" = dec 11 10
   /\ doseOf "10mg" = dec 125 100)
  /\ (forall dose, ~ In dose ["4mg"; "5mg"; "10mg"] ->
        inherited dose = false ->
        forall age dur sym t brand comboDrugs,
          RiskEngine.calculate age dose dur sym t brand comboDrugs
          = RiskEngine.calculate age "4mg" dur sym t brand comboDrugs
          /\ RiskEngineMonths.calculate age dose dur sym t
             = RiskEngineMonths.calculate age "4mg" dur sym t).
Proof.
  split; [repeat split; vm_compute; reflexivity|].
  intros dose Hk Hi age dur sym t brand comboDrugs.
  pose proof (dose_miss dose Hk Hi) as E. split.
  - unfold RiskEngine.calculate, RiskEngine.run. rewrite E. reflexivity.
  - unfold RiskEngineMonths.calculate, RiskEngineMonths.run. rewrite E.
    reflexivity.
Qed.

Lemma unknown_dose_scored_as_4mg_witness :
  exists r,
    RiskEngine.calculate (num 8) "20mg" (num 12) [] true (Some "Singulair")
      (Some []) = Normal r
    /\ RiskEngine.calculate (num 8) "4mg" (num 12) [] true (Some "Singulair")
         (Some []) = Normal r
    /\ RiskEngine.percentage r = ofZ 87
    /\ RiskEngineMonths.calculate (num 8) "20mg" (num 3) [] true
       = RiskEngineMonths.calculate (num 8) "4mg" (num 3) [] true.
Proof.
  assert (Hk : ~ In "20mg" ["4mg"; "5mg"; "10mg"]).
  { intros [H|[H|[H|[]]]]; discriminate H. }
  pose proof (proj2 unknown_dose_scored_as_4mg "20mg" Hk eq_refl) as H.
  destruct (H (num 8) (num 12) [] true (Some "Singulair") (Some []))
    as [Hw _].
  destruct (H (num 8) (num 3) [] true None None) as [_ Hm].
  eexists. split; [rewrite Hw; vm_compute; reflexivity|].
  split; [vm_compute; reflexivity|]. split; [vm_compute; reflexivity|].
  exact Hm.
Defined.

(** X2. Every truthy age below 4, negative and fractional ages included,
    falls through to the bracket ["1-3"] and takes the highest baseline,
    0.94, in both builds. *)
Theorem truthy_age_below_4_takes_highest_baseline (a : number)
    (dose : string) (dur : arg) (sym : list string) (t : bool)
    (brand : option string) (combo : list string) :
  truthy_number a = true -> lt a (ofZ 4) = true ->
  getAgeGroupKey (ANumber a) = "1-3"
  /\ (exists r,
        RiskEngine.calculate (ANumber a) dose dur sym t brand (Some combo)
        = Normal r
        /\ RiskEngine.base (RiskEngine.details r) = VNumber (dec 94 100))
  /\ RiskEngineMonths.base
       (RiskEngineMonths.details
          (RiskEngineMonths.calculate (ANumber a) dose dur sym t))
     = VNumber (dec 94 100).
Proof.
  intros Ht Hlt.
  assert (Hk : getAgeGroupKey (ANumber a) = "1-3").
  { rewrite (getAgeGroupKey_number a Ht).
    rewrite (lt_not_ge_above a (ofZ 4) (ofZ 16) Hlt eq_refl).
    rewrite (lt_not_ge_above a (ofZ 4) (ofZ 13) Hlt eq_refl).
    rewrite (lt_not_ge_above a (ofZ 4) (ofZ 10) Hlt eq_refl).
    rewrite (lt_not_ge_above a (ofZ 4) (ofZ 7) Hlt eq_refl).
    rewrite (lt_not_ge_above a (ofZ 4) (ofZ 4) Hlt eq_refl).
    reflexivity. }
  split; [exact Hk|]. split.
  - rewrite weeks_closed_form. eexists. split; [reflexivity|].
    cbn [RiskEngine.details RiskEngine.base]. rewrite Hk.
    vm_compute. reflexivity.
  - rewrite months_closed_form.
    cbn [RiskEngineMonths.details RiskEngineMonths.base]. rewrite Hk.
    vm_compute. reflexivity.
Qed.

Lemma truthy_age_below_4_takes_highest_baseline_witness :
  getAgeGroupKey (num (-5)) = "1-3"
  /\ getAgeGroupKey (ANumber (dec 5 10)) = "1-3".
Proof.
  split.
  - refine (proj1 (truthy_age_below_4_takes_highest_baseline (ofZ (-5))
                     "4mg" ANull [] false None [] _ _)); reflexivity.
  - refine (proj1 (truthy_age_below_4_takes_highest_baseline (dec 5 10)
                     "4mg" ANull [] false None [] _ _)); reflexivity.
Defined.

(** X3. In the build in months an empty-string or [null] duration is
    ["medium"]; a number below 1 is ["short"], from 1 to 6 inclusive
    ["medium"], above 6 ["long"]; and in both builds a duration that is
    NaN or [undefined] fails every comparison and is ["long"], with the
    multiplier 1.2. *)
Theorem months_duration_category :
  RiskEngineMonths.getDurationKey AEmptyString = "medium"
  /\ RiskEngineMonths.getDurationKey ANull = "medium"
  /\ (forall d,
        (lt d (ofZ 1) = true ->
         RiskEngineMonths.getDurationKey (ANumber d) = "short"
         /\ monthsDurOf (ANumber d) = ofZ 1)
        /\ (ge d (ofZ 1) = true -> le d (ofZ 6) = true ->
            RiskEngineMonths.getDurationKey (ANumber d) = "medium"
            /\ monthsDurOf (ANumber d) = dec 11 10)
        /\ (gt d (ofZ 6) = true ->
            RiskEngineMonths.getDurationKey (ANumber d) = "long"
            /\ monthsDurOf (ANumber d) = dec 12 10))
  /\ (forall dur, is_nan (arg_number dur) = true ->
        RiskEngineMonths.getDurationKey dur = "long"
        /\ monthsDurOf dur = dec 12 10
        /\ RiskEngine.getDurationKey dur = "long"
        /\ weeksDurOf dur = dec 12 10).
Proof.
  split; [reflexivity|]. split; [reflexivity|]. split.
  - intros d. unfold monthsDurOf, RiskEngineMonths.getDurationKey.
    cbn [arg_number]. repeat split.
    + rewrite H. reflexivity.
    + rewrite H. vm_compute. reflexivity.
    + rewrite (ge_not_lt d _ H), H0. reflexivity.
    + rewrite (ge_not_lt d _ H), H0. vm_compute. reflexivity.
    + rewrite (gt_not_lt_below d (ofZ 1) (ofZ 6) H eq_refl).
      rewrite (gt_not_le d _ H). reflexivity.
    + rewrite (gt_not_lt_below d (ofZ 1) (ofZ 6) H eq_refl).
      rewrite (gt_not_le d _ H). vm_compute. reflexivity.
  - intros dur Hn.
    destruct dur as [| | |d]; try discriminate Hn.
    + repeat split; vm_compute; reflexivity.
    + cbn [arg_number] in Hn. destruct d; try discriminate Hn.
      repeat split; vm_compute; reflexivity.
Qed.

Lemma months_duration_category_witness :
  RiskEngineMonths.getDurationKey (ANumber (dec 5 10)) = "short"
  /\ RiskEngineMonths.getDurationKey (num 6) = "medium"
  /\ RiskEngineMonths.getDurationKey (num 7) = "long"
  /\ RiskEngine.getDurationKey AUndefined = "long".
Proof.
  pose proof months_duration_category as (_ & _ & H & Hn).
  split; [|split; [|split]].
  - apply (proj1 (H (dec 5 10))). reflexivity.
  - apply (proj1 (proj2 (H (ofZ 6)))); reflexivity.
  - apply (proj2 (proj2 (H (ofZ 7)))). reflexivity.
  - apply (Hn AUndefined). reflexivity.
Defined.

End EngineProperties.

(** ** What the scores of proper doses never do *)

Section ScoreBands.

Lemma band_ok_spec (r : number) :
  band_ok r = true ->
  exists z,
    percentOf r = ofZ z
    /\ ((finalLabelOf r = "High Risk" /\ 70 <= z <= 99)
        \/ (finalLabelOf r = "Moderate Risk" /\ 30 <= z <= 70)
        \/ (finalLabelOf r = "Low Risk" /\ 14 <= z <= 30)).
Proof.
  unfold band_ok.
  destruct (finalLabelOf_cases r) as [E|[E|E]]; rewrite E; cbn [String.eqb];
    intros H; apply integer_between_spec in H; destruct H as (z & Hz & Ep);
    exists z; (split; [exact Ep|]); auto.
Qed.

(** X4. For every dose that is a table key or unknown to the prototype
    chain the lower clamp never applies: the fraction is at least 0.14, the
    lowest baseline, and the percentage is a whole number from 14 to 99, in
    both builds. *)
Theorem percentage_at_least_14 (age : arg) (dose : string) (dur : arg)
    (sym : list string) (t : bool) (brand : option string)
    (combo : list string) :
  inherited dose = false ->
  (exists l,
     RiskEngine.run age dose dur sym t brand (Some combo) = Normal l
     /\ RiskEngine.calculate age dose dur sym t brand (Some combo)
        = Normal (RiskEngine.result l)
     /\ le (dec 14 100) (RiskEngine.currentRisk l) = true
     /\ exists z, 14 <= z <= 99
                  /\ RiskEngine.percentage (RiskEngine.result l) = ofZ z)
  /\ (let l := RiskEngineMonths.run age dose dur sym t in
      le (dec 14 100) (RiskEngineMonths.currentRisk l) = true
      /\ exists z, 14 <= z <= 99
                   /\ RiskEngineMonths.percentage
                        (RiskEngineMonths.calculate age dose dur sym t)
                      = ofZ z).
Proof.
  intros Hi. split.
  - destruct (run_array age dose dur sym t brand combo)
      as (l & Hrun & Hcalc & _ & Hb & Hdm & Hum & Had & _ & Hhh & Hcc & Hr
          & _).
    pose proof (weeks_facts age dose dur sym t brand combo Hi) as F.
    assert (Er : RiskEngine.currentRisk l
                 = weeksScore age dose dur sym t brand combo).
    { rewrite Hr, Hb, Hdm, Hum, Had, Hhh, Hcc. reflexivity. }
    unfold facts_ok in F. fold (weeksScore age dose dur sym t brand combo) in F.
    rewrite <- Er in F.
    apply andb_prop in F. destruct F as [F _].
    apply andb_prop in F. destruct F as [F _].
    apply andb_prop in F. destruct F as [Flo Fp].
    exists l. split; [exact Hrun|]. split; [exact Hcalc|].
    split; [exact Flo|]. exact (integer_between_spec _ _ _ Fp).
  - intros l.
    destruct (run_months age dose dur sym t)
      as (_ & Hb & Hdm & Hum & Had & _ & Hhh & Hr & _).
    fold l in Hb, Hdm, Hum, Had, Hhh, Hr.
    pose proof (months_facts age dose dur sym t Hi) as F.
    assert (Er : RiskEngineMonths.currentRisk l
                 = monthsScore age dose dur sym t).
    { rewrite Hr, Hb, Hdm, Hum, Had, Hhh. reflexivity. }
    unfold facts_ok in F. fold (monthsScore age dose dur sym t) in F.
    rewrite <- Er in F.
    apply andb_prop in F. destruct F as [F _].
    apply andb_prop in F. destruct F as [F _].
    apply andb_prop in F. destruct F as [Flo Fp].
    split; [exact Flo|]. exact (integer_between_spec _ _ _ Fp).
Qed.

Lemma percentage_at_least_14_witness :
  exists l,
    RiskEngine.run (num 17) "4mg" (num 2) [] false (Some "Singulair")
      (Some []) = Normal l
    /\ le (dec 14 100) (RiskEngine.currentRisk l) = true.
Proof.
  destruct (proj1 (percentage_at_least_14 (num 17) "4mg" (num 2) [] false
                     (Some "Singulair") [] eq_refl))
    as (l & Hrun & _ & Hlo & _).
  exists l. split; [exact Hrun | exact Hlo].
Defined.

(** X5. The percentage shown with a label lies in the band of the label:
    ["High Risk"] comes with 70 to 99, ["Moderate Risk"] with 30 to 70 and
    ["Low Risk"] with 14 to 30 (the bands meet at 30 and 70 because the
    label is cut on the fraction before rounding).  For every dose that is
    a table key or unknown to the prototype chain, in both builds. *)
Theorem label_percentage_bands (age : arg) (dose : string) (dur : arg)
    (sym : list string) (t : bool) (brand : option string)
    (combo : list string) :
  inherited dose = false ->
  (exists r z,
     RiskEngine.calculate age dose dur sym t brand (Some combo) = Normal r
     /\ RiskEngine.percentage r = ofZ z
     /\ ((RiskEngine.label r = "High Risk" /\ 70 <= z <= 99)
         \/ (RiskEngine.label r = "Moderate Risk" /\ 30 <= z <= 70)
         \/ (RiskEngine.label r = "Low Risk" /\ 14 <= z <= 30)))
  /\ (exists z,
        let r := RiskEngineMonths.calculate age dose dur sym t in
        RiskEngineMonths.percentage r = ofZ z
        /\ ((RiskEngineMonths.label r = "High Risk" /\ 70 <= z <= 99)
            \/ (RiskEngineMonths.label r = "Moderate Risk" /\ 30 <= z <= 70)
            \/ (RiskEngineMonths.label r = "Low Risk" /\ 14 <= z <= 30))).
Proof.
  intros Hi. split.
  - pose proof (weeks_facts age dose dur sym t brand combo Hi) as F.
    unfold facts_ok in F. fold (weeksScore age dose dur sym t brand combo) in F.
    apply andb_prop in F. destruct F as [F _].
    apply andb_prop in F. destruct F as [_ Fb].
    destruct (band_ok_spec _ Fb) as (z & Ep & Hz).
    rewrite weeks_closed_form. eexists. exists z.
    split; [reflexivity|].
    cbn [RiskEngine.percentage RiskEngine.label]. split; [exact Ep | exact Hz].
  - pose proof (months_facts age dose dur sym t Hi) as F.
    unfold facts_ok in F. fold (monthsScore age dose dur sym t) in F.
    apply andb_prop in F. destruct F as [F _].
    apply andb_prop in F. destruct F as [_ Fb].
    destruct (band_ok_spec _ Fb) as (z & Ep & Hz).
    exists z. rewrite months_closed_form.
    cbn [RiskEngineMonths.percentage RiskEngineMonths.label].
    split; [exact Ep | exact Hz].
Qed.

Lemma label_percentage_bands_witness :
  exists r z,
    RiskEngine.calculate (num 17) "10mg" (num 30) ["Anxiety"] true
      (Some "Singulair") (Some []) = Normal r
    /\ RiskEngine.percentage r = ofZ z
    /\ ((RiskEngine.label r = "High Risk" /\ 70 <= z <= 99)
        \/ (RiskEngine.label r = "Moderate Risk" /\ 30 <= z <= 70)
        \/ (RiskEngine.label r = "Low Risk" /\ 14 <= z <= 30)).
Proof.
  exact (proj1 (label_percentage_bands (num 17) "10mg" (num 30) ["Anxiety"]
                  true (Some "Singulair") [] eq_refl)).
Defined.

(** X6. One selected symptom of the HIGH_RISK catalog is enough for the
    label ["High Risk"] and a percentage of at least 75, whatever the age,
    duration, temporal flag and other symptoms, for every dose that is a
    table key or unknown to the prototype chain, in both builds. *)
Theorem high_risk_symptom_gives_high_risk (age : arg) (dose : string)
    (dur : arg) (sym : list string) (t : bool) (brand : option string)
    (combo : list string) :
  inherited dose = false ->
  (exists s, In s sym /\ In s HIGH_RISK) ->
  (exists r z,
     RiskEngine.calculate age dose dur sym t brand (Some combo) = Normal r
     /\ RiskEngine.label r = "High Risk"
     /\ RiskEngine.percentage r = ofZ z /\ 75 <= z <= 99)
  /\ (exists z,
        let r := RiskEngineMonths.calculate age dose dur sym t in
        RiskEngineMonths.label r = "High Risk"
        /\ RiskEngineMonths.percentage r = ofZ z /\ 75 <= z <= 99).
Proof.
  intros Hi Hs. apply someHighRisk_In in Hs. split.
  - pose proof (weeks_facts age dose dur sym t brand combo Hi) as F.
    unfold facts_ok in F. fold (weeksScore age dose dur sym t brand combo) in F.
    apply andb_prop in F. destruct F as [_ F].
    rewrite Hs in F. cbn [implb] in F.
    apply andb_prop in F. destruct F as [Fl Fp].
    apply String.eqb_eq in Fl.
    destruct (integer_between_spec _ _ _ Fp) as (z & Hz & Ep).
    rewrite weeks_closed_form. eexists. exists z.
    split; [reflexivity|].
    cbn [RiskEngine.percentage RiskEngine.label].
    split; [exact Fl|]. split; [exact Ep | exact Hz].
  - pose proof (months_facts age dose dur sym t Hi) as F.
    unfold facts_ok in F. fold (monthsScore age dose dur sym t) in F.
    apply andb_prop in F. destruct F as [_ F].
    rewrite Hs in F. cbn [implb] in F.
    apply andb_prop in F. destruct F as [Fl Fp].
    apply String.eqb_eq in Fl.
    destruct (integer_between_spec _ _ _ Fp) as (z & Hz & Ep).
    exists z. rewrite months_closed_form.
    cbn [RiskEngineMonths.percentage RiskEngineMonths.label].
    split; [exact Fl|]. split; [exact Ep | exact Hz].
Qed.

Lemma high_risk_symptom_gives_high_risk_witness :
  exists r,
    RiskEngine.calculate (num 17) "4mg" (num 2) ["Anxiety"; "Suicide attempt"]
      false (Some "Singulair") (Some []) = Normal r
    /\ RiskEngine.label r = "High Risk".
Proof.
  assert (Hs : exists s, In s ["Anxiety"; "Suicide attempt"]
                         /\ In s HIGH_RISK).
  { exists "Suicide attempt". split; cbn; tauto. }
  destruct (proj1 (high_risk_symptom_gives_high_risk (num 17) "4mg" (num 2)
                     ["Anxiety"; "Suicide attempt"] false (Some "Singulair")
                     [] eq_refl Hs)) as (r & z & Hc & Hl & _).
  exists r. split; [exact Hc | exact Hl].
Defined.

End ScoreBands.

(** ** How the result moves with the inputs *)

Section Monotonicity.

(** X7. Answering yes to the temporal association never lowers the
    result: with all other arguments equal, the fraction and the
    percentage with the flag set are at least those without it.  For every
    dose that is a table key or unknown to the prototype chain, in both
    builds. *)
Theorem temporal_association_never_lowers (age : arg) (dose : string)
    (dur : arg) (sym : list string) (brand : option string)
    (combo : list string) :
  inherited dose = false ->
  (exists r0 r1,
     RiskEngine.calculate age dose dur sym false brand (Some combo)
     = Normal r0
     /\ RiskEngine.calculate age dose dur sym true brand (Some combo)
        = Normal r1
     /\ le (RiskEngine.percentage r0) (RiskEngine.percentage r1) = true)
  /\ le (RiskEngineMonths.percentage
           (RiskEngineMonths.calculate age dose dur sym false))
        (RiskEngineMonths.percentage
           (RiskEngineMonths.calculate age dose dur sym true)) = true.
Proof.
  intros Hi. split.
  - pose proof (temporal_ok_tables (baseOf age) (doseOf dose)
                  (weeksDurOf dur) (adder_by_count (List.length sym))
                  (someHighRisk sym) (isCritical brand combo)
                  (baseOf_in age) (doseOf_in dose Hi) (weeksDurOf_in dur)
                  (adder_in _)) as F.
    unfold temporal_ok in F. apply andb_prop in F. destruct F as [_ F].
    rewrite !weeks_closed_form. do 2 eexists.
    split; [reflexivity|]. split; [reflexivity|].
    cbn [RiskEngine.percentage]. exact F.
  - pose proof (temporal_ok_tables (baseOf age) (doseOf dose)
                  (monthsDurOf dur) (adder_by_count (List.length sym))
                  (someHighRisk sym) false
                  (baseOf_in age) (doseOf_in dose Hi) (monthsDurOf_in dur)
                  (adder_in _)) as F.
    unfold temporal_ok in F. apply andb_prop in F. destruct F as [_ F].
    rewrite !months_closed_form. cbn [RiskEngineMonths.percentage]. exact F.
Qed.

Lemma temporal_association_never_lowers_witness :
  le (RiskEngineMonths.percentage
        (RiskEngineMonths.calculate (num 8) "5mg" (num 3) [] false))
     (RiskEngineMonths.percentage
        (RiskEngineMonths.calculate (num 8) "5mg" (num 3) [] true)) = true.
Proof.
  exact (proj2 (temporal_association_never_lowers (num 8) "5mg" (num 3) []
                  None [] eq_refl)).
Defined.

Lemma adder_step_in (n : nat) :
  In (adder_by_count n, adder_by_count (S n)) adder_steps.
Proof.
  destruct n as [|[|[|[|n]]]]; cbn [adder_by_count adder_steps In]; tauto.
Qed.

Lemma severity_step_in (sym1 sym2 : list string) (s : string) :
  In (someHighRisk (sym1 ++ sym2), someHighRisk (sym1 ++ s :: sym2))
    severity_steps.
Proof.
  unfold someHighRisk. rewrite !existsb_app. cbn [existsb].
  destruct (existsb _ sym1), (existsb _ sym2), (existsb _ HIGH_RISK);
    cbn; tauto.
Qed.

Lemma length_insert (sym1 sym2 : list string) (s : string) :
  List.length (sym1 ++ s :: sym2) = S (List.length (sym1 ++ sym2)).
Proof. rewrite !length_app. cbn [List.length]. lia. Qed.

(** X8. Ticking one more symptom never lowers the result: wherever the
    new symptom lands in the list, the percentage is at least what it was
    without it.  For every dose that is a table key or unknown to the
    prototype chain, in both builds. *)
Theorem one_more_symptom_never_lowers (age : arg) (dose : string)
    (dur : arg) (sym1 sym2 : list string) (s : string) (t : bool)
    (brand : option string) (combo : list string) :
  inherited dose = false ->
  (exists r0 r1,
     RiskEngine.calculate age dose dur (sym1 ++ sym2) t brand (Some combo)
     = Normal r0
     /\ RiskEngine.calculate age dose dur (sym1 ++ s :: sym2) t brand
          (Some combo) = Normal r1
     /\ le (RiskEngine.percentage r0) (RiskEngine.percentage r1) = true)
  /\ le (RiskEngineMonths.percentage
           (RiskEngineMonths.calculate age dose dur (sym1 ++ sym2) t))
        (RiskEngineMonths.percentage
           (RiskEngineMonths.calculate age dose dur (sym1 ++ s :: sym2) t))
     = true.
Proof.
  intros Hi.
  pose proof (adder_step_in (List.length (sym1 ++ sym2))) as Ha.
  rewrite <- (length_insert sym1 sym2 s) in Ha.
  pose proof (severity_step_in sym1 sym2 s) as Hh.
  split.
  - pose proof (symptom_ok_tables (baseOf age) (doseOf dose)
                  (weeksDurOf dur) t (isCritical brand combo) _ _
                  (baseOf_in age) (doseOf_in dose Hi) (weeksDurOf_in dur)
                  Ha Hh) as F.
    unfold symptom_ok in F. cbn [fst snd] in F.
    apply andb_prop in F. destruct F as [_ F].
    rewrite !weeks_closed_form. do 2 eexists.
    split; [reflexivity|]. split; [reflexivity|].
    cbn [RiskEngine.percentage]. exact F.
  - pose proof (symptom_ok_tables (baseOf age) (doseOf dose)
                  (monthsDurOf dur) t false _ _
                  (baseOf_in age) (doseOf_in dose Hi) (monthsDurOf_in dur)
                  Ha Hh) as F.
    unfold symptom_ok in F. cbn [fst snd] in F.
    apply andb_prop in F. destruct F as [_ F].
    rewrite !months_closed_form. cbn [RiskEngineMonths.percentage]. exact F.
Qed.

Lemma one_more_symptom_never_lowers_witness :
  le (RiskEngineMonths.percentage
        (RiskEngineMonths.calculate (num 17) "4mg" (num 2)
           (["Anxiety"] ++ ["Fatigue"]) false))
     (RiskEngineMonths.percentage
        (RiskEngineMonths.calculate (num 17) "4mg" (num 2)
           (["Anxiety"] ++ "Suicide attempt" :: ["Fatigue"]) false)) = true.
Proof.
  exact (proj2 (one_more_symptom_never_lowers (num 17) "4mg" (num 2)
                  ["Anxiety"] ["Fatigue"] "Suicide attempt" false None []
                  eq_refl)).
Defined.

Lemma catalogs_disjoint :
  forallb (fun s => negb (existsb (String.eqb s) HIGH_RISK))
    MODERATE_LOW_RISK = true.
Proof. vm_compute. reflexivity. Qed.

(** X9. The two symptom catalogs share no name, so a selection made only
    of MODERATE_LOW_RISK symptoms never raises the severity flag: the
    category reported is the one of the count rule, in both builds. *)
Theorem moderate_symptoms_never_raise_severity (age : arg) (dose : string)
    (dur : arg) (sym : list string) (t : bool) (brand : option string)
    (combo : list string) :
  (forall s, In s sym -> In s MODERATE_LOW_RISK) ->
  (exists r,
     RiskEngine.calculate age dose dur sym t brand (Some combo) = Normal r
     /\ RiskEngine.hasHighSeverity (RiskEngine.details r) = false
     /\ RiskEngine.symptomCat (RiskEngine.details r)
        = load_by_count (List.length sym))
  /\ (let r := RiskEngineMonths.calculate age dose dur sym t in
      RiskEngineMonths.hasHighSeverity (RiskEngineMonths.details r) = false
      /\ RiskEngineMonths.symptomCat (RiskEngineMonths.details r)
         = load_by_count (List.length sym)).
Proof.
  intros Hm.
  assert (Hs : someHighRisk sym = false).
  { unfold someHighRisk. induction sym as [|x rest IH]; [reflexivity|].
    cbn [existsb]. rewrite IH by (intros s Hs; apply Hm; right; exact Hs).
    pose proof (forallb_In _ _ x catalogs_disjoint (Hm x (or_introl eq_refl)))
      as Hx. cbv beta in Hx. apply negb_true_iff in Hx. rewrite Hx.
    reflexivity. }
  split.
  - rewrite weeks_closed_form. eexists. split; [reflexivity|].
    cbn [RiskEngine.details RiskEngine.hasHighSeverity RiskEngine.symptomCat].
    rewrite Hs. split; reflexivity.
  - rewrite months_closed_form.
    cbn [RiskEngineMonths.details RiskEngineMonths.hasHighSeverity
         RiskEngineMonths.symptomCat].
    rewrite Hs. split; reflexivity.
Qed.

Lemma moderate_symptoms_never_raise_severity_witness :
  exists r,
    RiskEngine.calculate (num 8) "5mg" (num 12)
      ["Aggressive behavior"; "Severe insomnia"; "Night terrors";
       "Depression (mild-moderate)"] true (Some "Singulair") (Some [])
    = Normal r
    /\ RiskEngine.hasHighSeverity (RiskEngine.details r) = false.
Proof.
  assert (Hm : forall s,
             In s ["Aggressive behavior"; "Severe insomnia"; "Night terrors";
                   "Depression (mild-moderate)"] ->
             In s MODERATE_LOW_RISK).
  { intros s [<-|[<-|[<-|[<-|[]]]]]; cbn; tauto. }
  destruct (proj1 (moderate_symptoms_never_raise_severity (num 8) "5mg"
                     (num 12) _ true (Some "Singulair") [] Hm))
    as (r & Hc & Hh & _).
  exists r. split; [exact Hc | exact Hh].
Defined.

(** X10. The brand and the combination drugs matter only through the
    critical combination: two calls that differ only in [brand] and in the
    [comboDrugs] array return the same result unless one of them pairs
    ["Almont"] with ["Levocetirizine"]. *)
Theorem brand_matters_only_in_critical_combination (age : arg)
    (dose : string) (dur : arg) (sym : list string) (t : bool)
    (brand brand' : option string) (combo combo' : list string) :
  ~ (brand = Some "Almont" /\ In "Levocetirizine" combo) ->
  ~ (brand' = Some "Almont" /\ In "Levocetirizine" combo') ->
  RiskEngine.calculate age dose dur sym t brand (Some combo)
  = RiskEngine.calculate age dose dur sym t brand' (Some combo')
  /\ exists r,
       RiskEngine.calculate age dose dur sym t brand (Some combo) = Normal r
       /\ RiskEngine.isCriticalCombo (RiskEngine.details r) = false.
Proof.
  intros H H'. rewrite !weeks_closed_form. unfold weeksScore.
  rewrite (isCritical_false brand combo H), (isCritical_false brand' combo' H').
  split; [reflexivity|]. eexists. split; reflexivity.
Qed.

Lemma brand_matters_only_in_critical_combination_witness :
  RiskEngine.calculate (num 8) "5mg" (num 12) [] true (Some "Almont")
    (Some ["Cetirizine"])
  = RiskEngine.calculate (num 8) "5mg" (num 12) [] true (Some "Singulair")
      (Some ["Levocetirizine"]).
Proof.
  refine (proj1 (brand_matters_only_in_critical_combination (num 8) "5mg"
                   (num 12) [] true (Some "Almont") (Some "Singulair")
                   ["Cetirizine"] ["Levocetirizine"] _ _)).
  - intros [_ [H|[]]]. discriminate H.
  - intros [H _]. discriminate H.
Defined.

End Monotonicity.

(** ** The controllers: from the form to the engine call *)

Section ControllerState.

Lemma pushChecked_from (boxes : list (bool * string)) (acc : list string) :
  fold_left
    (fun (acc : list string) (cb : bool * string) =>
       if fst cb then (acc ++ [snd cb])%list else acc)
    boxes acc
  = (acc ++ map snd (filter fst boxes))%list.
Proof.
  revert acc. induction boxes as [|[c v] rest IH]; intros acc; cbn.
  - rewrite app_nil_r. reflexivity.
  - rewrite IH. destruct c; cbn; [rewrite <- app_assoc|]; reflexivity.
Qed.

Lemma selectDose_unchecked (d : string) (radios : list (bool * string)) :
  (forall r, In r radios -> fst r = false) -> selectDose d radios = d.
Proof.
  unfold selectDose. revert d.
  induction radios as [|r rest IH]; intros d H; cbn; [reflexivity|].
  rewrite (H r (or_introl eq_refl)). apply IH.
  intros r' Hr'. apply H. right. exact Hr'.
Qed.

(** X11. [updateState] never hands NaN to the engine.  An age field that
    does not parse (or parses to 0) becomes age 0, which the engine scores
    with the default baseline 0.69; a duration field that does not parse
    becomes 0, which is ["short"] with multiplier 1.0 and not the
    ["medium"] the engine keeps for an empty duration.  Both controllers. *)
Theorem updateState_replaces_unparsable_numbers :
  (forall state f,
     let s := Controller.updateState state f in
     is_nan (Controller.age s) = false
     /\ is_nan (Controller.durationWeeks s) = false
     /\ (truthy_number (Controller.ageParsed f) = false ->
         Controller.age s = ofZ 0
         /\ exists r,
              Controller.engineCall s = Normal r
              /\ RiskEngine.base (RiskEngine.details r)
                 = VNumber (dec 69 100))
     /\ (is_nan (Controller.durationParsed f) = true ->
         Controller.durationWeeks s = ofZ 0
         /\ RiskEngine.getDurationKey (ANumber (Controller.durationWeeks s))
            = "short"
         /\ weeksDurOf (ANumber (Controller.durationWeeks s)) = ofZ 1))
  /\ (forall state f,
        let s := ControllerMonths.updateState state f in
        is_nan (ControllerMonths.age s) = false
        /\ is_nan (ControllerMonths.durationMonths s) = false
        /\ (truthy_number (ControllerMonths.ageParsed f) = false ->
            ControllerMonths.age s = ofZ 0
            /\ RiskEngineMonths.base
                 (RiskEngineMonths.details (ControllerMonths.engineCall s))
               = VNumber (dec 69 100))
        /\ (is_nan (ControllerMonths.durationParsed f) = true ->
            ControllerMonths.durationMonths s = ofZ 0
            /\ RiskEngineMonths.getDurationKey
                 (ANumber (ControllerMonths.durationMonths s)) = "short"
            /\ monthsDurOf (ANumber (ControllerMonths.durationMonths s))
               = ofZ 1)).
Proof.
  split; intros state f s.
  - split; [|split; [|split]].
    + subst s. cbn [Controller.updateState Controller.age].
      destruct (Controller.ageParsed f) as [sg|sg| |sg m e]; reflexivity.
    + subst s. cbn [Controller.updateState Controller.durationWeeks].
      destruct (Controller.durationParsed f) as [sg|sg| |sg m e]; reflexivity.
    + intros Ht.
      assert (Ea : Controller.age s = ofZ 0).
      { subst s. cbn [Controller.updateState Controller.age]. rewrite Ht.
        reflexivity. }
      split; [exact Ea|].
      unfold Controller.engineCall. rewrite weeks_closed_form, Ea.
      eexists. split; [reflexivity|]. vm_compute. reflexivity.
    + intros Hn.
      assert (Ed : Controller.durationWeeks s = ofZ 0).
      { subst s. cbn [Controller.updateState Controller.durationWeeks].
        rewrite Hn. reflexivity. }
      rewrite Ed. repeat split; vm_compute; reflexivity.
  - split; [|split; [|split]].
    + subst s. cbn [ControllerMonths.updateState ControllerMonths.age].
      destruct (ControllerMonths.ageParsed f) as [sg|sg| |sg m e];
        reflexivity.
    + subst s.
      cbn [ControllerMonths.updateState ControllerMonths.durationMonths].
      destruct (ControllerMonths.durationParsed f) as [sg|sg| |sg m e];
        reflexivity.
    + intros Ht.
      assert (Ea : ControllerMonths.age s = ofZ 0).
      { subst s. cbn [ControllerMonths.updateState ControllerMonths.age].
        rewrite Ht. reflexivity. }
      split; [exact Ea|].
      unfold ControllerMonths.engineCall. rewrite months_closed_form, Ea.
      vm_compute. reflexivity.
    + intros Hn.
      assert (Ed : ControllerMonths.durationMonths s = ofZ 0).
      { subst s.
        cbn [ControllerMonths.updateState ControllerMonths.durationMonths].
        rewrite Hn. reflexivity. }
      rewrite Ed. repeat split; vm_compute; reflexivity.
Qed.

Lemma updateState_replaces_unparsable_numbers_witness :
  let f :=
    {| ControllerMonths.ageParsed := NaN;
       ControllerMonths.durationParsed := NaN;
       ControllerMonths.doseInputs := [(false, "4mg"); (true, "10mg")];
       ControllerMonths.temporalValue := "no";
       ControllerMonths.symptomBoxes := [(true, "Anxiety")] |} in
  let s := ControllerMonths.updateState ControllerMonths.initialState f in
  ControllerMonths.age s = ofZ 0
  /\ ControllerMonths.durationMonths s = ofZ 0.
Proof.
  intros f s.
  destruct (proj2 updateState_replaces_unparsable_numbers
              ControllerMonths.initialState f) as (_ & _ & Ha & Hd).
  split.
  - exact (proj1 (Ha eq_refl)).
  - exact (proj1 (Hd eq_refl)).
Defined.

(** X12. The dose after [updateState] is the value of the last checked
    dose radio button; when none is checked the previous dose is kept. *)
Theorem dose_is_last_checked_radio (state : Controller.State)
    (f : Controller.Form) :
  ((forall r, In r (Controller.doseInputs f) -> fst r = false) ->
   Controller.dose (Controller.updateState state f) = Controller.dose state)
  /\ (forall before v after,
        Controller.doseInputs f = (before ++ (true, v) :: after)%list ->
        (forall r, In r after -> fst r = false) ->
        Controller.dose (Controller.updateState state f) = v).
Proof.
  cbn [Controller.updateState Controller.dose]. split.
  - apply selectDose_unchecked.
  - intros before v after E H. rewrite E. unfold selectDose.
    rewrite fold_left_app. cbn [fold_left fst snd].
    apply (selectDose_unchecked v after H).
Qed.

Lemma dose_is_last_checked_radio_witness :
  let f :=
    {| Controller.ageParsed := ofZ 9;
       Controller.genderValue := "female";
       Controller.heightValue := "130";
       Controller.weightValue := "28";
       Controller.brandValue := "Almont";
       Controller.frequencyValue := "evening";
       Controller.durationParsed := ofZ 30;
       Controller.doseInputs := [(false, "4mg"); (true, "5mg");
                                 (false, "10mg")];
       Controller.comboChecks := [(true, "Levocetirizine")];
       Controller.temporalValue := "yes";
       Controller.symptomBoxes := [(false, "Anxiety"); (true, "Fatigue")] |}
  in
  Controller.dose (Controller.updateState Controller.initialState f) = "5mg".
Proof.
  intros f.
  refine (proj2 (dose_is_last_checked_radio Controller.initialState f)
            [(false, "4mg")] "5mg" [(false, "10mg")] eq_refl _).
  intros r [<-|[]]. reflexivity.
Defined.

Lemma colourOf_labels :
  colourOf "High Risk" = ("--risk-high", "bg-high")
  /\ colourOf "Moderate Risk" = ("--risk-mod", "bg-mod")
  /\ colourOf "Low Risk" = ("--risk-low", "bg-low").
Proof. repeat split; reflexivity. Qed.

(** X13. The colour of the ring and of the label badge always agrees with
    the label the engine returned: high for ["High Risk"], moderate for
    ["Moderate Risk"], low for ["Low Risk"], and the engine returns no
    other label.  Both controllers, every state. *)
Theorem colour_follows_label :
  (forall state,
     exists r v,
       Controller.engineCall state = Normal r
       /\ Controller.calculateAndRender state = Normal v
       /\ labelText v = RiskEngine.label r
       /\ ((labelText v = "High Risk" /\ colorVar v = "--risk-high"
            /\ bgClass v = "bg-high")
           \/ (labelText v = "Moderate Risk" /\ colorVar v = "--risk-mod"
               /\ bgClass v = "bg-mod")
           \/ (labelText v = "Low Risk" /\ colorVar v = "--risk-low"
               /\ bgClass v = "bg-low")))
  /\ (forall state,
        let v := ControllerMonths.calculateAndRender state in
        (labelText v = "High Risk" /\ colorVar v = "--risk-high"
         /\ bgClass v = "bg-high")
        \/ (labelText v = "Moderate Risk" /\ colorVar v = "--risk-mod"
            /\ bgClass v = "bg-mod")
        \/ (labelText v = "Low Risk" /\ colorVar v = "--risk-low"
            /\ bgClass v = "bg-low")).
Proof.
  destruct colourOf_labels as (Ch & Cm & Cl). split.
  - intros state. unfold Controller.calculateAndRender, Controller.engineCall.
    rewrite weeks_closed_form. cbn [bind]. do 2 eexists.
    split; [reflexivity|]. split; [reflexivity|].
    unfold Controller.render. cbn [RiskEngine.label].
    destruct (finalLabelOf_cases
                (weeksScore (ANumber (Controller.age state))
                   (Controller.dose state)
                   (ANumber (Controller.durationWeeks state))
                   (Controller.symptoms state) (Controller.temporal state)
                   (Some (Controller.brand state))
                   (Controller.comboDrugs state))) as [E|[E|E]];
      rewrite E; [rewrite Ch | rewrite Cm | rewrite Cl];
      cbn [labelText colorVar bgClass]; auto 10.
  - intros state v. subst v.
    unfold ControllerMonths.calculateAndRender, ControllerMonths.engineCall.
    rewrite months_closed_form.
    unfold ControllerMonths.render. cbn [RiskEngineMonths.label].
    destruct (finalLabelOf_cases
                (monthsScore (ANumber (ControllerMonths.age state))
                   (ControllerMonths.dose state)
                   (ANumber (ControllerMonths.durationMonths state))
                   (ControllerMonths.symptoms state)
                   (ControllerMonths.temporal state))) as [E|[E|E]];
      rewrite E; [rewrite Ch | rewrite Cm | rewrite Cl];
      cbn [labelText colorVar bgClass]; auto 10.
Qed.

End ControllerState.

(** ** The controllers: what is rendered *)

Section ControllerView.

Lemma checked_includes (x : string) (boxes : list (bool * string)) :
  existsb (String.eqb x) (pushChecked boxes) = true <-> In (true, x) boxes.
Proof.
  unfold pushChecked. rewrite pushChecked_from. cbn [app].
  rewrite existsb_eqb_In, in_map_iff. split.
  - intros [[c v] [Ev Hin]]. apply filter_In in Hin. destruct Hin as [Hin Hc].
    cbn in Ev, Hc. subst. exact Hin.
  - intros Hin. exists (true, x). split; [reflexivity|].
    apply filter_In. split; [exact Hin | reflexivity].
Qed.

Lemma severityLine_not_critical (cat : string) :
  severityLine cat <> CriticalCombination.
Proof.
  unfold severityLine. destruct (String.eqb cat "High (Severity)");
    discriminate.
Qed.

(** X14. After [updateState] the critical-combination banner is shown
    exactly when the brand select reads ["Almont"] and the check box with
    the value ["Levocetirizine"] is ticked; the counter then heads for 96
    and the label reads ["High Risk"], whatever else the form holds. *)
Theorem critical_banner_iff_almont_and_levocetirizine
    (state : Controller.State) (f : Controller.Form) :
  exists v,
    Controller.calculateAndRender (Controller.updateState state f) = Normal v
    /\ (explanation v = CriticalCombination
        <-> (Controller.brandValue f = "Almont"
             /\ In (true, "Levocetirizine") (Controller.comboChecks f)))
    /\ (explanation v = CriticalCombination ->
        counterTarget v = ofZ 96 /\ labelText v = "High Risk").
Proof.
  unfold Controller.calculateAndRender, Controller.engineCall.
  rewrite weeks_closed_form. cbn [bind]. eexists. split; [reflexivity|].
  unfold Controller.render.
  destruct (colourOf _) as [cv bg].
  cbn [explanation counterTarget labelText RiskEngine.details
       RiskEngine.isCriticalCombo RiskEngine.percentage RiskEngine.label
       RiskEngine.symptomCat].
  cbn [Controller.updateState Controller.brand Controller.comboDrugs].
  unfold weeksScore.
  destruct (isCritical (Some (Controller.brandValue f))
              (pushChecked (Controller.comboChecks f))) eqn:Ec.
  - assert (Hc : Controller.brandValue f = "Almont"
                 /\ In (true, "Levocetirizine") (Controller.comboChecks f)).
    { unfold isCritical in Ec. apply andb_prop in Ec. destruct Ec as [Eb Ei].
      apply String.eqb_eq in Eb. apply checked_includes in Ei.
      split; assumption. }
    split; [split; [intros _; exact Hc | reflexivity]|].
    intros _. unfold score. split; vm_compute; reflexivity.
  - split.
    + split.
      * intros H. exfalso. exact (severityLine_not_critical _ H).
      * intros [Eb Ei]. exfalso. unfold isCritical in Ec.
        apply checked_includes in Ei. rewrite Eb, Ei in Ec. discriminate Ec.
    + intros H. exfalso. exact (severityLine_not_critical _ H).
Qed.

Lemma critical_banner_iff_almont_and_levocetirizine_witness :
  let f :=
    {| Controller.ageParsed := ofZ 9;
       Controller.genderValue := "female";
       Controller.heightValue := "130";
       Controller.weightValue := "28";
       Controller.brandValue := "Almont";
       Controller.frequencyValue := "evening";
       Controller.durationParsed := ofZ 30;
       Controller.doseInputs := [(true, "4mg"); (false, "5mg");
                                 (false, "10mg")];
       Controller.comboChecks := [(false, "Cetirizine");
                                  (true, "Levocetirizine")];
       Controller.temporalValue := "no";
       Controller.symptomBoxes := [(false, "Anxiety"); (false, "Fatigue")] |}
  in
  exists v,
    Controller.calculateAndRender
      (Controller.updateState Controller.initialState f) = Normal v
    /\ counterTarget v = ofZ 96.
Proof.
  intros f.
  destruct (critical_banner_iff_almont_and_levocetirizine
              Controller.initialState f) as (v & Hv & Hiff & Hc).
  exists v. split; [exact Hv|].
  apply Hc. apply Hiff. split; [reflexivity | cbn; tauto].
Defined.

Lemma severityLine_load (n : nat) :
  severityLine (load_by_count n) = SymptomLoad (load_by_count n).
Proof. destruct n as [|[|[|[|n]]]]; reflexivity. Qed.

Lemma basePercent_in (age : arg) :
  In (percentOf (baseOf age))
    [ofZ 14; ofZ 33; ofZ 54; ofZ 69; ofZ 85; ofZ 94].
Proof.
  pose proof (baseOf_in age) as H. unfold bases in H. cbn [In] in H.
  destruct H as [<-|[<-|[<-|[<-|[<-|[<-|[]]]]]]]; vm_compute; tauto.
Qed.

(** X15. What the explanation panel can show, for every state of the
    week controller: the critical banner if the combination applies, else
    the high-severity notice if a HIGH_RISK symptom is selected, else the
    symptom load Low, Moderate or High of the count rule; the base-risk
    line shows 14, 33, 54, 69, 85 or 94 percent; the severity summary
    reads High exactly when a HIGH_RISK symptom is selected. *)
Theorem explanation_panel (state : Controller.State) :
  exists v,
    Controller.calculateAndRender state = Normal v
    /\ explanation v
       = (if isCritical (Some (Controller.brand state))
               (Controller.comboDrugs state)
          then CriticalCombination
          else if someHighRisk (Controller.symptoms state)
               then HighSeverityDetected
          else SymptomLoad
                 (load_by_count (List.length (Controller.symptoms state))))
    /\ In (basePercent v) [ofZ 14; ofZ 33; ofZ 54; ofZ 69; ofZ 85; ofZ 94]
    /\ summarySeverity v
       = (if someHighRisk (Controller.symptoms state) then "High"
          else "Low/Mod")
    /\ summaryCount v = List.length (Controller.symptoms state).
Proof.
  unfold Controller.calculateAndRender, Controller.engineCall.
  rewrite weeks_closed_form. cbn [bind]. eexists. split; [reflexivity|].
  unfold Controller.render.
  destruct (colourOf _) as [cv bg].
  cbn [explanation basePercent summarySeverity summaryCount
       RiskEngine.details RiskEngine.isCriticalCombo RiskEngine.symptomCat
       RiskEngine.hasHighSeverity RiskEngine.base].
  split; [|split; [|split; reflexivity]].
  - destruct (isCritical _ _); [reflexivity|].
    destruct (someHighRisk _); [reflexivity|]. apply severityLine_load.
  - exact (basePercent_in (ANumber (Controller.age state))).
Qed.

Lemma Zrange_In (n : nat) (lo z : Z) :
  lo <= z < lo + Z.of_nat n -> In z (Zrange lo n).
Proof.
  revert lo. induction n as [|n IH]; intros lo H; [lia|].
  cbn [Zrange In]. destruct (Z.eq_dec lo z) as [E|E]; [left; exact E|].
  right. apply IH. lia.
Qed.

Lemma all_offsets_ok : forallb offset_ok (Zrange 14 86) = true.
Proof. vm_compute. reflexivity. Qed.

(** X16. For every state whose dose is a table key or unknown to the
    prototype chain, the dash offset written to the ring lies strictly
    between 6 and 541 of the circumference 628: the ring is never drawn
    empty and never full.  Both controllers. *)
Theorem ring_offset_inside (state : Controller.State)
    (stateM : ControllerMonths.State) :
  (inherited (Controller.dose state) = false ->
   exists v,
     Controller.calculateAndRender state = Normal v
     /\ lt (ofZ 6) (strokeDashoffset v) = true
     /\ lt (strokeDashoffset v) (ofZ 541) = true)
  /\ (inherited (ControllerMonths.dose stateM) = false ->
      let v := ControllerMonths.calculateAndRender stateM in
      lt (ofZ 6) (strokeDashoffset v) = true
      /\ lt (strokeDashoffset v) (ofZ 541) = true).
Proof.
  split; intros Hi.
  - pose proof (weeks_facts (ANumber (Controller.age state))
                  (Controller.dose state)
                  (ANumber (Controller.durationWeeks state))
                  (Controller.symptoms state) (Controller.temporal state)
                  (Some (Controller.brand state))
                  (Controller.comboDrugs state) Hi) as F.
    unfold facts_ok in F.
    apply andb_prop in F. destruct F as [F _].
    apply andb_prop in F. destruct F as [F _].
    apply andb_prop in F. destruct F as [_ Fp].
    destruct (integer_between_spec _ _ _ Fp) as (z & Hz & Ep).
    pose proof (forallb_In _ _ z all_offsets_ok
                  (Zrange_In 86 14 z ltac:(lia))) as Ho.
    unfold offset_ok in Ho. apply andb_prop in Ho.
    unfold Controller.calculateAndRender, Controller.engineCall.
    rewrite weeks_closed_form. cbn [bind]. eexists. split; [reflexivity|].
    unfold Controller.render. destruct (colourOf _) as [cv bg].
    cbn [strokeDashoffset RiskEngine.percentage].
    unfold weeksScore. rewrite Ep. exact Ho.
  - intros v. subst v.
    pose proof (months_facts (ANumber (ControllerMonths.age stateM))
                  (ControllerMonths.dose stateM)
                  (ANumber (ControllerMonths.durationMonths stateM))
                  (ControllerMonths.symptoms stateM)
                  (ControllerMonths.temporal stateM) Hi) as F.
    unfold facts_ok in F.
    apply andb_prop in F. destruct F as [F _].
    apply andb_prop in F. destruct F as [F _].
    apply andb_prop in F. destruct F as [_ Fp].
    destruct (integer_between_spec _ _ _ Fp) as (z & Hz & Ep).
    pose proof (forallb_In _ _ z all_offsets_ok
                  (Zrange_In 86 14 z ltac:(lia))) as Ho.
    unfold offset_ok in Ho. apply andb_prop in Ho.
    unfold ControllerMonths.calculateAndRender, ControllerMonths.engineCall.
    rewrite months_closed_form.
    unfold ControllerMonths.render. destruct (colourOf _) as [cv bg].
    cbn [strokeDashoffset RiskEngineMonths.percentage].
    unfold monthsScore. rewrite Ep. exact Ho.
Qed.

Lemma ring_offset_inside_witness :
  exists v,
    Controller.calculateAndRender Controller.initialState = Normal v
    /\ lt (ofZ 6) (strokeDashoffset v) = true.
Proof.
  destruct (proj1 (ring_offset_inside Controller.initialState
                     ControllerMonths.initialState) eq_refl)
    as (v & Hv & Hlo & _).
  exists v. split; [exact Hv | exact Hlo].
Defined.

End ControllerView.

(** ** The counter animation *)

Section CounterAnimation.

Lemma SFcompare_Eq_positive (x : number) (m : positive) (e : Z) :
  SFcompare x (S754_finite false m e) = Some Eq -> x = S754_finite false m e.
Proof.
  destruct x as [s|s| |s mx ex]; cbn [SFcompare]; try destruct s;
    try discriminate.
  destruct (Z.compare_spec ex e) as [E|E|E]; try discriminate.
  intros H. injection H as H. apply Pos.compare_eq_iff in H. subst.
  reflexivity.
Qed.

(** A ratio of at least 1 is capped to exactly 1. *)
Lemma Math_min_one (x : number) :
  ge x (ofZ 1) = true -> Math_min x (ofZ 1) = ofZ 1.
Proof.
  intros H. pose proof (lt_not_ge x (ofZ 1)) as Hlt.
  unfold lt, ge, SFltb in *. unfold Math_min.
  destruct (SFcompare x (ofZ 1)) as [[| |]|] eqn:Ec.
  - change (ofZ 1) with (S754_finite false 4503599627370496 (-52)) in Ec.
    apply SFcompare_Eq_positive in Ec. subst x. reflexivity.
  - rewrite (Hlt eq_refl) in H. discriminate H.
  - reflexivity.
  - destruct x; try discriminate Ec; discriminate H.
Qed.

Lemma all_landings_ok :
  forallb (fun a => forallb (fun b => landing_ok a b) (Zrange 0 101))
    (Zrange 0 101) = true.
Proof. vm_compute. reflexivity. Qed.

(** X17. The counter animation lands on its target.  Between two whole
    percentages from 0 to 100, the first frame whose elapsed time is at
    least the duration writes exactly the target and requests no further
    frame, so nothing is written after it. *)
Theorem animation_lands_on_target (a b : Z) (duration : number)
    (startTimestamp : option number) (timestamp : number)
    (rest : list number) :
  0 <= a <= 100 -> 0 <= b <= 100 ->
  ge (div (sub timestamp (effectiveStart startTimestamp timestamp)) duration)
     (ofZ 1) = true ->
  step (ofZ a) (ofZ b) duration startTimestamp timestamp
  = (Some (effectiveStart startTimestamp timestamp), ofZ b, false)
  /\ frames_from (ofZ a) (ofZ b) duration startTimestamp (timestamp :: rest)
     = [ofZ b].
Proof.
  intros Ha Hb Hge.
  assert (Hs : step (ofZ a) (ofZ b) duration startTimestamp timestamp
               = (Some (effectiveStart startTimestamp timestamp), ofZ b,
                  false)).
  { unfold step.
    change (match startTimestamp with
            | Some s => if truthy_number s then s else timestamp
            | None => timestamp
            end) with (effectiveStart startTimestamp timestamp).
    rewrite (Math_min_one _ Hge).
    pose proof (forallb_In _ _ a all_landings_ok
                  (Zrange_In 101 0 a ltac:(lia))) as H.
    cbv beta in H.
    pose proof (forallb_In _ _ b H (Zrange_In 101 0 b ltac:(lia))) as H'.
    cbv beta in H'. unfold landing_ok in H'.
    rewrite (number_eqb_eq _ _ H'). reflexivity. }
  split; [exact Hs|].
  cbn [frames_from]. rewrite Hs. reflexivity.
Qed.

Lemma animation_lands_on_target_witness :
  step (ofZ 19) (ofZ 96) (ofZ 500) (Some (ofZ 1000)) (ofZ 1516)
  = (Some (ofZ 1000), ofZ 96, false).
Proof.
  refine (proj1 (animation_lands_on_target 19 96 (ofZ 500) (Some (ofZ 1000))
                   (ofZ 1516) [] _ _ _)); [lia | lia | reflexivity].
Defined.

Lemma sub_nan (x y : number) :
  is_nan x = true \/ is_nan y = true -> sub x y = NaN.
Proof.
  intros [H|H]; destruct x, y; try discriminate H; reflexivity.
Qed.

Lemma mul_nan_r (x : number) : mul x NaN = NaN.
Proof. destruct x; reflexivity. Qed.

Lemma add_nan_l (x : number) : add NaN x = NaN.
Proof. reflexivity. Qed.

Lemma add_nan_r (x : number) : add x NaN = NaN.
Proof. destruct x; reflexivity. Qed.

Lemma step_nan (start end_ duration : number)
    (startTimestamp : option number) (timestamp : number) :
  is_nan start = true \/ is_nan end_ = true ->
  snd (fst (step start end_ duration startTimestamp timestamp)) = NaN.
Proof.
  intros H. unfold step. cbn [fst snd].
  rewrite (sub_nan end_ start) by tauto. rewrite mul_nan_r, add_nan_l.
  reflexivity.
Qed.

(** X18. When the text of the counter does not parse ([parseInt] gives
    NaN for the start) or the engine returned the percentage NaN, the
    animation is started and every number it writes is NaN, the last frame
    included: the counter never shows a percentage. *)
Theorem animation_with_NaN_writes_only_NaN (start end_ duration : number)
    (frames : list number) :
  is_nan start = true \/ is_nan end_ = true ->
  animateValue start end_ duration frames
  = frames_from start end_ duration None frames
  /\ Forall (fun shown => shown = NaN)
       (animateValue start end_ duration frames).
Proof.
  intros H.
  assert (E : strict_eq start end_ = false).
  { destruct H as [H|H]; destruct start, end_; try discriminate H;
      reflexivity. }
  unfold animateValue. rewrite E. split; [reflexivity|].
  generalize (@None number) as st. induction frames as [|t rest IH];
    intros st; [constructor|].
  cbn [frames_from].
  pose proof (step_nan start end_ duration st t H) as Hs.
  destruct (step start end_ duration st t) as [[st' shown] again].
  cbn [fst snd] in Hs. constructor; [exact Hs|].
  destruct again; [apply IH | constructor].
Qed.

Lemma animation_with_NaN_writes_only_NaN_witness :
  Forall (fun shown => shown = NaN)
    (animateValue NaN (ofZ 96) (ofZ 500) [ofZ 1000; ofZ 1250; ofZ 1600]).
Proof.
  exact (proj2 (animation_with_NaN_writes_only_NaN NaN (ofZ 96) (ofZ 500)
                  [ofZ 1000; ofZ 1250; ofZ 1600] (or_introl eq_refl))).
Defined.

End CounterAnimation.
